(** * PA1010D GPS driver: a shallow embedding of [library/pa1010d/__init__.py]

    The driver talks to the receiver over I2C one byte at a time.  The model
    keeps the data the way the Python code has it:

    - [bytes] / [bytearray] values are [list byte];
    - [str] values are [string]; a character is its code point, and the code
      points below 128 are the ones the "ascii" codec accepts;
    - [time.time()] returns binary64 floats, modelled by primitive floats;
    - the outside world (the clock, the bytes the receiver answers, the bytes
      written to it, the lines printed in debug mode) is an explicit [world]
      value threaded through every method;
    - a Python exception is a value of [exn], and every method returns an
      [outcome]; loops take a fuel argument. *)

From Stdlib Require Import NArith ZArith List String Ascii Bool Lia Permutation.
From Stdlib Require Import Strings.Byte Numbers.DecimalString Floats.PrimFloat.
From Stdlib Require DecimalZ DecimalPos.
Import ListNotations.

Local Open Scope string_scope.
Local Open Scope list_scope.

(** ** Outcomes and exceptions *)

Inductive exn : Type :=
| TimeoutError (msg : string)
| RuntimeError (msg : string)
| ValueError (msg : string)
| UnicodeEncodeError
| UnicodeDecodeError
| OtherError (class msg : string).  (* an exception of any other class *)

Inductive outcome (A : Type) : Type :=
| Returned (a : A)
| Raised (e : exn)
| OutOfFuel.

Arguments Returned {A} a.
Arguments Raised {A} e.
Arguments OutOfFuel {A}.

(** ** The outside world *)

Record world : Type := mkWorld {
  clock_pos : nat;              (* number of [time.time()] calls so far *)
  rx_pos : nat;                 (* number of [read_byte_data] calls so far *)
  tx : list (N * byte);         (* every [write_byte (address, value)], oldest first *)
  stdout : list string          (* lines printed, oldest first *)
}.

Definition i2c_write_byte (addr : N) (value : byte) (w : world) : world :=
  mkWorld (clock_pos w) (rx_pos w) (tx w ++ [(addr, value)]) (stdout w).

Definition print (line : string) (w : world) : world :=
  mkWorld (clock_pos w) (rx_pos w) (tx w) (stdout w ++ [line]).

(** ** Python values held by the fix fields *)

Inductive pyval : Type :=
| PyNone
| PyInt (z : Z)
| PyFloat (f : float)
| PyStr (s : string)
| PyObj (repr : string).

(** ** The driver object *)

Definition PA1010D_ADDR : N := 16.

Inductive PPS : Type := DISABLE | AFTER_FIRST_FIX | ONLY_3D | ONLY_2D_3D | ALWAYS.

Definition PPS_value (m : PPS) : Z :=
  match m with
  | DISABLE => 0
  | AFTER_FIRST_FIX => 1
  | ONLY_3D => 2
  | ONLY_2D_3D => 3
  | ALWAYS => 4
  end%Z.

Record PA1010D : Type := mkPA1010D {
  timestamp : pyval;
  latitude : pyval;
  longitude : pyval;
  altitude : pyval;
  num_sats : pyval;
  gps_qual : pyval;
  speed_over_ground : pyval;
  mode_fix_type : pyval;
  pdop : pyval;
  hdop : pyval;
  vdop : pyval;
  _i2c_addr : N;
  _debug : bool
}.

(** [PA1010D.__init__] *)
Definition init (i2c_addr : N) (debug : bool) : PA1010D :=
  mkPA1010D PyNone PyNone PyNone PyNone PyNone PyNone PyNone PyNone
            PyNone PyNone PyNone i2c_addr debug.

(** ** Bytes and text *)

Definition CR : byte := "013"%byte.
Definition LF : byte := "010"%byte.
Definition DOLLAR : byte := "$"%byte.
Definition STAR : byte := "*"%byte.

Fixpoint bytes_eqb (a b : list byte) : bool :=
  match a, b with
  | [], [] => true
  | x :: a', y :: b' => Byte.eqb x y && bytes_eqb a' b'
  | _, _ => false
  end.

(** [l.startswith(p)] and [l.endswith(p)] on byte strings. *)
Definition startswith (l p : list byte) : bool :=
  bytes_eqb (firstn (List.length p) l) p.

Definition endswith (l p : list byte) : bool :=
  (List.length p <=? List.length l)%nat
  && bytes_eqb (skipn (List.length l - List.length p) l) p.

Definition is_ascii (c : ascii) : bool := (N_of_ascii c <? 128)%N.

(** [s.encode("ascii")]: [None] stands for UnicodeEncodeError. *)
Fixpoint encode_ascii (s : string) : option (list byte) :=
  match s with
  | EmptyString => Some []
  | String c rest =>
      if is_ascii c then
        match encode_ascii rest with
        | Some bs => Some (byte_of_ascii c :: bs)
        | None => None
        end
      else None
  end.

(** [b.decode("ascii")]: [None] stands for UnicodeDecodeError. *)
Fixpoint decode_ascii (bs : list byte) : option string :=
  match bs with
  | [] => Some EmptyString
  | b :: rest =>
      if is_ascii (ascii_of_byte b) then
        match decode_ascii rest with
        | Some s => Some (String (ascii_of_byte b) s)
        | None => None
        end
      else None
  end.

(** ** Number formatting *)

Definition hex_digit (n : N) : ascii :=
  match n with
  | 0 => "0" | 1 => "1" | 2 => "2" | 3 => "3" | 4 => "4" | 5 => "5"
  | 6 => "6" | 7 => "7" | 8 => "8" | 9 => "9" | 10 => "A" | 11 => "B"
  | 12 => "C" | 13 => "D" | 14 => "E" | _ => "F"
  end%N%char.

(** Uppercase hexadecimal digits of [n], most significant first, without
    padding ([format(n, "X")]). *)
Fixpoint hex_digits (fuel : nat) (n : N) (acc : string) : string :=
  match fuel with
  | O => acc
  | S fuel' =>
      let acc' := String (hex_digit (n mod 16)) acc in
      if (n / 16 =? 0)%N then acc' else hex_digits fuel' (n / 16) acc'
  end.

Definition format_X (n : N) : string :=
  hex_digits (S (N.to_nat (N.log2 n))) n EmptyString.

Fixpoint zero_fill (k : nat) (s : string) : string :=
  match k with
  | O => s
  | S k' => String "0" (zero_fill k' s)
  end.

(** ["{:02X}".format(n)]: zero-padded on the left to a width of at least 2. *)
Definition format_02X (n : N) : string :=
  let s := format_X n in zero_fill (2 - String.length s) s.

(** [str(z)] for a Python int. *)
Definition str_int (z : Z) : string := NilZero.string_of_int (Z.to_int z).

(** ** Command encoder *)

Inductive command : Type :=
| Text (s : string)
| Bytes (b : list byte).

(** [PA1010D._write_sentence]: one bus write per byte. *)
Fixpoint _write_sentence (self : PA1010D) (bytestring : list byte) (w : world)
  : world :=
  match bytestring with
  | [] => w
  | char_index :: rest =>
      _write_sentence self rest (i2c_write_byte (_i2c_addr self) char_index w)
  end.

(** The [for char in command: checksum ^= char] loop. *)
Definition xor_loop (command : list byte) : N :=
  fold_left (fun checksum char => N.lxor checksum (Byte.to_N char)) command 0%N.

(** The body of [send_command] once [command] is a byte string. *)
Definition send_command_bytes (self : PA1010D) (command : list byte)
           (add_checksum : bool) (w : world) : outcome unit * world :=
  let command := if startswith command [DOLLAR] then skipn 1 command else command in
  let command :=
    if endswith command [STAR] then firstn (List.length command - 1) command
    else command in
  let buf := [DOLLAR] ++ command in
  let tail := [CR; LF] in
  if add_checksum then
    let checksum := xor_loop command in
    match encode_ascii (format_02X checksum) with
    | Some digits =>
        (Returned tt, _write_sentence self (((buf ++ [STAR]) ++ digits) ++ tail) w)
    | None => (Raised UnicodeEncodeError, w)
    end
  else (Returned tt, _write_sentence self (buf ++ tail) w).

(** [PA1010D.send_command] *)
Definition send_command (self : PA1010D) (cmd : command) (add_checksum : bool)
           (w : world) : outcome unit * world :=
  match cmd with
  | Text s =>
      match encode_ascii s with
      | Some b => send_command_bytes self b add_checksum w
      | None => (Raised UnicodeEncodeError, w)
      end
  | Bytes b => send_command_bytes self b add_checksum w
  end.

(** ** PPS mode encoder *)

(** What a caller may pass as [pulse_width]: an int, or any other object,
    given by the text that [format] makes of it (a [str] is its own text). *)
Inductive pulse_arg : Type :=
| PulseInt (z : Z)
| PulseOther (text : string).

(** ["{}".format(pulse_width)] *)
Definition format_pulse (pulse_width : pulse_arg) : string :=
  match pulse_width with
  | PulseInt z => str_int z
  | PulseOther text => text
  end.

(** ["PMTK285,{mode},{pulse_width}".format(...)] *)
Definition pps_sentence (m : PPS) (pulse_width : pulse_arg) : string :=
  ("PMTK285," ++ str_int (PPS_value m) ++ "," ++ format_pulse pulse_width)%string.

(** What a caller may pass as [mode]: a member of [PPS] or anything else. *)
Inductive mode_arg : Type :=
| IsPPS (m : PPS)
| NotPPS (v : pyval).

(** [PA1010D.set_pps] *)
Definition set_pps (self : PA1010D) (mode : mode_arg)
           (pulse_width : pulse_arg) (w : world) : outcome unit * world :=
  match mode with
  | NotPPS _ => (Raised (ValueError "Mode must be of type PPS"), w)
  | IsPPS m =>
      let sentence := pps_sentence m pulse_width in
      send_command self (Text sentence) true w
  end.

(** ** Framed reader *)

(** Characters removed by [str.strip()]: the code points below 256 for which
    [str.isspace()] holds. *)
Definition is_space (c : ascii) : bool :=
  let n := N_of_ascii c in
  ((9 <=? n) && (n <=? 13) || (28 <=? n) && (n <=? 32)
   || (n =? 133) || (n =? 160))%N.

Fixpoint lstrip (s : string) : string :=
  match s with
  | EmptyString => EmptyString
  | String c rest => if is_space c then lstrip rest else s
  end.

Fixpoint rstrip (s : string) : string :=
  match s with
  | EmptyString => EmptyString
  | String c rest =>
      match rstrip rest with
      | EmptyString => if is_space c then EmptyString else String c EmptyString
      | kept => String c kept
      end
  end.

(** [s.strip()] *)
Definition strip (s : string) : string := rstrip (lstrip s).

(** [s.replace("\n", "")] *)
Fixpoint remove_newlines (s : string) : string :=
  match s with
  | EmptyString => EmptyString
  | String c rest =>
      if Ascii.eqb c "010"%char then remove_newlines rest
      else String c (remove_newlines rest)
  end.

(** [buf[-2:]] *)
Definition last_two (buf : list byte) : list byte :=
  skipn (List.length buf - 2) buf.

(** ** Parsed sentences

    [pynmea2] is an external library; a parsed sentence is modelled by its
    class and by what the driver gets when it reads an attribute.  Plain and
    converted fields always give a value.  [latitude] and [longitude] of a
    GGA sentence are computed properties: reading one either gives a value or
    raises ValueError when the field is not a valid coordinate. *)

Inductive reading : Type :=
| Reads (v : pyval)
| Invalid (msg : string).

Inductive sentence : Type :=
| GGA (timestamp : pyval) (latitude longitude : reading)
      (altitude num_sats gps_qual : pyval)
| GLL
| GSA (mode_fix_type pdop hdop vdop : pyval)
| RMC (spd_over_grnd : pyval)
| VTG
| GSV
| ProprietarySentence
| MTK011
| MTK010
| OtherSentence (class_repr : string).

(** [str(type(result))] *)
Definition type_repr (result : sentence) : string :=
  match result with
  | GGA _ _ _ _ _ _ => "<class 'pynmea2.types.talker.GGA'>"
  | GLL => "<class 'pynmea2.types.talker.GLL'>"
  | GSA _ _ _ _ => "<class 'pynmea2.types.talker.GSA'>"
  | RMC _ => "<class 'pynmea2.types.talker.RMC'>"
  | VTG => "<class 'pynmea2.types.talker.VTG'>"
  | GSV => "<class 'pynmea2.types.talker.GSV'>"
  | ProprietarySentence => "<class 'pynmea2.nmea.ProprietarySentence'>"
  | MTK011 => "<class 'pynmea2.types.proprietary.mtk.MTK011'>"
  | MTK010 => "<class 'pynmea2.types.proprietary.mtk.MTK010'>"
  | OtherSentence class_repr => class_repr
  end.

(** The two classes named by the fallback check of [update]. *)
Inductive mtk_class : Type := Class_MTK011 | Class_MTK010.

Definition has_type (result : sentence) (c : mtk_class) : bool :=
  match result, c with
  | MTK011, Class_MTK011 => true
  | MTK010, Class_MTK010 => true
  | _, _ => false
  end.

(** What [pynmea2.parse] does with a line: it returns a sentence, raises
    [pynmea2.nmea.ParseError] (or a subclass), or raises an exception of
    another class, as it does on some lines it does not expect. *)
Inductive parsed : Type :=
| Parsed (result : sentence)
| ParseError
| ParseCrash (class msg : string).

(** What one pass through the [if]/[elif] chain of [update] decides. *)
Inductive control : Type :=
| Return (b : bool)
| Continue
| Raise (e : exn).

(** Attribute assignments [self.<field> = v]. *)

Definition set_timestamp (v : pyval) (self : PA1010D) : PA1010D :=
  mkPA1010D v (latitude self) (longitude self) (altitude self)
            (num_sats self) (gps_qual self) (speed_over_ground self)
            (mode_fix_type self) (pdop self) (hdop self) (vdop self)
            (_i2c_addr self) (_debug self).

Definition set_latitude (v : pyval) (self : PA1010D) : PA1010D :=
  mkPA1010D (timestamp self) v (longitude self) (altitude self)
            (num_sats self) (gps_qual self) (speed_over_ground self)
            (mode_fix_type self) (pdop self) (hdop self) (vdop self)
            (_i2c_addr self) (_debug self).

Definition set_longitude (v : pyval) (self : PA1010D) : PA1010D :=
  mkPA1010D (timestamp self) (latitude self) v (altitude self)
            (num_sats self) (gps_qual self) (speed_over_ground self)
            (mode_fix_type self) (pdop self) (hdop self) (vdop self)
            (_i2c_addr self) (_debug self).

Definition set_altitude (v : pyval) (self : PA1010D) : PA1010D :=
  mkPA1010D (timestamp self) (latitude self) (longitude self) v
            (num_sats self) (gps_qual self) (speed_over_ground self)
            (mode_fix_type self) (pdop self) (hdop self) (vdop self)
            (_i2c_addr self) (_debug self).

Definition set_num_sats (v : pyval) (self : PA1010D) : PA1010D :=
  mkPA1010D (timestamp self) (latitude self) (longitude self)
            (altitude self) v (gps_qual self) (speed_over_ground self)
            (mode_fix_type self) (pdop self) (hdop self) (vdop self)
            (_i2c_addr self) (_debug self).

Definition set_gps_qual (v : pyval) (self : PA1010D) : PA1010D :=
  mkPA1010D (timestamp self) (latitude self) (longitude self)
            (altitude self) (num_sats self) v (speed_over_ground self)
            (mode_fix_type self) (pdop self) (hdop self) (vdop self)
            (_i2c_addr self) (_debug self).

Definition set_speed_over_ground (v : pyval) (self : PA1010D) : PA1010D :=
  mkPA1010D (timestamp self) (latitude self) (longitude self)
            (altitude self) (num_sats self) (gps_qual self) v
            (mode_fix_type self) (pdop self) (hdop self) (vdop self)
            (_i2c_addr self) (_debug self).

Definition set_mode_fix_type (v : pyval) (self : PA1010D) : PA1010D :=
  mkPA1010D (timestamp self) (latitude self) (longitude self)
            (altitude self) (num_sats self) (gps_qual self)
            (speed_over_ground self) v (pdop self) (hdop self) (vdop self)
            (_i2c_addr self) (_debug self).

Definition set_pdop (v : pyval) (self : PA1010D) : PA1010D :=
  mkPA1010D (timestamp self) (latitude self) (longitude self)
            (altitude self) (num_sats self) (gps_qual self)
            (speed_over_ground self) (mode_fix_type self) v (hdop self)
            (vdop self) (_i2c_addr self) (_debug self).

Definition set_hdop (v : pyval) (self : PA1010D) : PA1010D :=
  mkPA1010D (timestamp self) (latitude self) (longitude self)
            (altitude self) (num_sats self) (gps_qual self)
            (speed_over_ground self) (mode_fix_type self) (pdop self) v
            (vdop self) (_i2c_addr self) (_debug self).

Definition set_vdop (v : pyval) (self : PA1010D) : PA1010D :=
  mkPA1010D (timestamp self) (latitude self) (longitude self)
            (altitude self) (num_sats self) (gps_qual self)
            (speed_over_ground self) (mode_fix_type self) (pdop self)
            (hdop self) v (_i2c_addr self) (_debug self).

Definition is_None (v : pyval) : bool :=
  match v with PyNone => true | _ => false end.

Definition return_if (b : bool) : control := if b then Return true else Continue.

Definition unsupported_message (result : sentence) (line : string) : string :=
  ("Unsupported message type " ++ type_repr result ++ " (" ++ line ++ ")")%string.

Definition timeout_message (wait_for : string) : string :=
  ("Timeout waiting for " ++ wait_for ++ " message.")%string.

(** The world after one more [time.time()] call. *)
Definition tick (w : world) : world :=
  mkWorld (S (clock_pos w)) (rx_pos w) (tx w) (stdout w).

Section Driver.

(** The [k]-th call of [time.time()] returns [clock k]; the [k]-th call of
    [read_byte_data] returns [rx k]. *)
Variable clock : nat -> float.
Variable rx : nat -> byte.

(** [pynmea2.parse] *)
Variable parse : string -> parsed.

(** Whether the installed parser has [pynmea2.types.proprietary.mtk]. *)
Variable has_mtk : bool.

Definition time_time (w : world) : float * world :=
  (clock (clock_pos w),
   mkWorld (S (clock_pos w)) (rx_pos w) (tx w) (stdout w)).

Definition read_byte_data (w : world) : byte * world :=
  (rx (rx_pos w),
   mkWorld (clock_pos w) (S (rx_pos w)) (tx w) (stdout w)).

(** The [while] loop of [read_sentence]; [timeout] is the deadline. *)
Fixpoint read_sentence_loop (fuel : nat) (timeout : float) (buf : list byte)
         (w : world) : outcome string * world :=
  match fuel with
  | O => (OutOfFuel, w)
  | S fuel' =>
      let (now, w1) := time_time w in
      if ltb now timeout then
        let (char, w2) := read_byte_data w1 in
        if (List.length buf =? 0)%nat && negb (Byte.eqb char DOLLAR) then
          read_sentence_loop fuel' timeout buf w2
        else
          let buf := buf ++ [char] in
          if bytes_eqb (last_two buf) [CR; LF] then
            match decode_ascii buf with
            | Some text => (Returned (remove_newlines (strip text)), w2)
            | None => (Raised UnicodeDecodeError, w2)
            end
          else read_sentence_loop fuel' timeout buf w2
      else (Raised (TimeoutError "Timeout waiting for readline"), w1)
  end.

(** [PA1010D.read_sentence] *)
Definition read_sentence (fuel : nat) (timeout : float) (w : world)
  : outcome string * world :=
  let (now, w1) := time_time w in
  read_sentence_loop fuel (add timeout now) [] w1.

(** Evaluating the tuple [(mtk.MTK011, mtk.MTK010)]: [None] stands for the
    AttributeError of the failed lookup. *)
Definition mtk_classes : option (list mtk_class) :=
  if has_mtk then Some [Class_MTK011; Class_MTK010] else None.

(** The [if type(result) == ...] chain of [update]. *)
Definition update_dispatch (result : sentence) (wait_for line : string)
           (self : PA1010D) (w : world) : control * PA1010D * world :=
  match result with
  | GGA ts lat lon alt ns q =>
      if is_None q then
        let self := set_num_sats (PyInt 0) self in
        let self := set_gps_qual (PyInt 0) self in
        (return_if (String.eqb wait_for "GGA"), self, w)
      else
        let self := set_timestamp ts self in
        match lat with
        | Invalid msg => (Raise (ValueError msg), self, w)
        | Reads lat =>
            let self := set_latitude lat self in
            match lon with
            | Invalid msg => (Raise (ValueError msg), self, w)
            | Reads lon =>
                let self := set_longitude lon self in
                let self := set_altitude alt self in
                let self := set_num_sats ns self in
                let self := set_gps_qual q self in
                (return_if (String.eqb wait_for "GGA"), self, w)
            end
        end
  | GLL => (Continue, self, w)
  | GSA mft p h v =>
      let self := set_mode_fix_type mft self in
      let self := set_pdop p self in
      let self := set_hdop h self in
      let self := set_vdop v self in
      (return_if (String.eqb wait_for "GSA"), self, w)
  | RMC spd =>
      let self := set_speed_over_ground spd self in
      (return_if (String.eqb wait_for "RMC"), self, w)
  | VTG => (return_if (String.eqb wait_for "VTG"), self, w)
  | GSV => (return_if (String.eqb wait_for "GSV"), self, w)
  | ProprietarySentence =>
      (Return true, self, if _debug self then print line w else w)
  | _ =>
      let unsupported := Raise (RuntimeError (unsupported_message result line)) in
      match mtk_classes with
      | Some classes =>
          if existsb (has_type result) classes then (Return true, self, w)
          else (unsupported, self, w)
      | None => (unsupported, self, w)      (* except AttributeError: pass *)
      end
  end.

(** The [while] loop of [update]; [timeout] is the deadline. *)
Fixpoint update_loop (fuel : nat) (wait_for : string) (timeout : float)
         (self : PA1010D) (w : world) : outcome bool * PA1010D * world :=
  match fuel with
  | O => (OutOfFuel, self, w)
  | S fuel' =>
      let (now, w1) := time_time w in
      if ltb now timeout then
        match read_sentence fuel' 5 w1 with
        | (Raised (TimeoutError _), w2) =>
            update_loop fuel' wait_for timeout self w2
        | (Raised e, w2) => (Raised e, self, w2)
        | (OutOfFuel, w2) => (OutOfFuel, self, w2)
        | (Returned line, w2) =>
            match parse line with
            | ParseError =>
                let w3 :=
                  if _debug self then print ("Parse error: " ++ line)%string w2
                  else w2 in
                update_loop fuel' wait_for timeout self w3
            | ParseCrash class msg => (Raised (OtherError class msg), self, w2)
            | Parsed result =>
                match update_dispatch result wait_for line self w2 with
                | (Return b, self', w3) => (Returned b, self', w3)
                | (Continue, self', w3) =>
                    update_loop fuel' wait_for timeout self' w3
                | (Raise e, self', w3) => (Raised e, self', w3)
                end
            end
        end
      else (Raised (TimeoutError (timeout_message wait_for)), self, w1)
  end.

(** [PA1010D.update] *)
Definition update (fuel : nat) (wait_for : string) (timeout : float)
           (self : PA1010D) (w : world) : outcome bool * PA1010D * world :=
  let (now, w1) := time_time w in
  update_loop fuel wait_for (add timeout now) self w1.

End Driver.

(** ** Concrete surroundings used to run the driver on examples *)

(** A receiver that answers the bytes of [data] and then line feeds, which is
    what the PA1010D sends when it has nothing to say. *)
Definition rx_of (data : string) (k : nat) : byte :=
  nth k (list_byte_of_string data) LF.

(** A clock that has not reached its next representable value between calls. *)
Definition frozen_clock (t : float) (k : nat) : float := t.

(** A clock that reads [t] for the first [n] calls and [t'] afterwards. *)
Definition step_clock (n : nat) (t t' : float) (k : nat) : float :=
  if (k <? n)%nat then t else t'.

Definition GLL_line : string := "$GPGLL,4916.45,N,12311.12,W,225444,A,*1D".
Definition GGA_line : string :=
  "$GPGGA,123519,4807.038,N,01131.000,E,1,08,0.9,545.4,M,46.9,M,,*47".
Definition PMTK_line : string := "$PMTK011,MTKGPS*08".
Definition ZDA_line : string := "$GPZDA,201530.00,04,07,2002,00,00*60".
Definition GSA_line : string := "$GPGSA,A,3,04,05,,09,12,,,24,,,,,2.5,1.3,2.1*39".
Definition PUBX_line : string := "$PUBX*1F".
Definition bad_GGA_line : string :=
  "$GPGGA,123519,48x7.038,N,01131.000,E,1,08,0.9,545.4,M,46.9,M,,*0F".

(** What [pynmea2.parse] does with seven lines: the classes and attribute
    values of five well-known sentences, a GGA sentence whose latitude field
    is not a coordinate, and a line on which the parser breaks; every other
    line is refused. *)
Definition example_parse (line : string) : parsed :=
  if String.eqb line GLL_line then Parsed GLL
  else if String.eqb line GGA_line then
    Parsed (GGA (PyObj "datetime.time(12, 35, 19)")
                (Reads (PyFloat 0x1.80f03afb7e910p+5))
                (Reads (PyFloat 0x1.7088888888889p+3))
                (PyFloat 0x1.10b3333333333p+9) (PyStr "08") (PyInt 1))
  else if String.eqb line PMTK_line then Parsed ProprietarySentence
  else if String.eqb line ZDA_line then
    Parsed (OtherSentence "<class 'pynmea2.types.talker.ZDA'>")
  else if String.eqb line GSA_line then
    Parsed (GSA (PyStr "3") (PyStr "2.5") (PyStr "1.3") (PyStr "2.1"))
  else if String.eqb line bad_GGA_line then
    Parsed (GGA (PyObj "datetime.time(12, 35, 19)")
                (Invalid "Geographic coordinate value '48x7.038' is not valid DDDMM.MMM")
                (Reads (PyFloat 0x1.7088888888889p+3))
                (PyFloat 0x1.10b3333333333p+9) (PyStr "08") (PyInt 1))
  else if String.eqb line PUBX_line then
    ParseCrash "IndexError" "list index out of range"
  else ParseError.

Definition world0 : world := mkWorld 0 0 [] [].
Definition CRLF : string := String "013" (String "010" EmptyString).

(** ** The wire frame in the words of the specification *)

Definition drop_leading_dollar (p : list byte) : list byte :=
  match p with
  | b :: rest => if Byte.eqb b DOLLAR then rest else p
  | [] => []
  end.

Fixpoint drop_trailing_star (p : list byte) : list byte :=
  match p with
  | [] => []
  | b :: rest =>
      match rest with
      | [] => if Byte.eqb b STAR then [] else [b]
      | _ :: _ => b :: drop_trailing_star rest
      end
  end.

(** Normalization: drop one leading [$], then one trailing [*]. *)
Definition spec_normalize (p : list byte) : list byte :=
  drop_trailing_star (drop_leading_dollar p).

(** XOR of every byte. *)
Definition spec_checksum (p : list byte) : N :=
  fold_right (fun b acc => N.lxor (Byte.to_N b) acc) 0%N p.

(** Two uppercase hexadecimal digits, zero-padded. *)
Definition two_hex_digits (c : N) : list byte :=
  [byte_of_ascii (hex_digit (c / 16)); byte_of_ascii (hex_digit (c mod 16))].

Definition spec_frame (payload : list byte) (add_checksum : bool) : list byte :=
  let n := spec_normalize payload in
  [DOLLAR] ++ n
  ++ (if add_checksum then STAR :: two_hex_digits (spec_checksum n) else [])
  ++ [CR; LF].

(** The bytes a command stands for, when it has any. *)
Definition command_bytes (cmd : command) : option (list byte) :=
  match cmd with
  | Text s => encode_ascii s
  | Bytes b => Some b
  end.

(** The world after the bytes [bs] went out to address [addr]. *)
Definition sent (addr : N) (bs : list byte) (w : world) : world :=
  mkWorld (clock_pos w) (rx_pos w) (tx w ++ map (pair addr) bs) (stdout w).

(** ** Streams, deadlines and sentence kinds in the words of the specification *)

(** From position [k] on, the receiver answers the bytes of [l]. *)
Definition stream_at (rx : nat -> byte) (k : nat) (l : list byte) : Prop :=
  forall i, (i < List.length l)%nat -> rx (k + i)%nat = nth i l LF.

(** The [n] clock readings from position [k] on are before [deadline]. *)
Definition in_time (clock : nat -> float) (k n : nat) (deadline : float) : Prop :=
  forall i, (i < n)%nat -> ltb (clock (k + i)%nat) deadline = true.

(** A carriage return immediately followed by a line feed occurs in [l]. *)
Fixpoint has_crlf (l : list byte) : bool :=
  match l with
  | [] => false
  | a :: rest =>
      match rest with
      | [] => false
      | b :: _ => (Byte.eqb a CR && Byte.eqb b LF) || has_crlf rest
      end
  end.

(** The world after [n] more clock readings and [m] more bus reads. *)
Definition later (n m : nat) (w : world) : world :=
  mkWorld (clock_pos w + n) (rx_pos w + m) (tx w) (stdout w).

(** The sentence type a caller names in [wait_for]. *)
Definition kind_name (result : sentence) : option string :=
  match result with
  | GGA _ _ _ _ _ _ => Some "GGA"
  | GLL => Some "GLL"
  | GSA _ _ _ _ => Some "GSA"
  | RMC _ => Some "RMC"
  | VTG => Some "VTG"
  | GSV => Some "GSV"
  | _ => None
  end.

(** The kinds of the fold table that can satisfy a [wait_for] of their own
    name: every talker kind but GLL. *)
Definition can_satisfy (result : sentence) : bool :=
  match result with
  | GGA _ _ _ _ _ _ | GSA _ _ _ _ | RMC _ | VTG | GSV => true
  | _ => false
  end.

Definition names (wait_for : string) (result : sentence) : bool :=
  match kind_name result with
  | Some k => String.eqb wait_for k
  | None => false
  end.

(** Device notices: the plain proprietary sentence and, when the parser has
    them, the two MTK boot sentences. *)
Definition is_notice (has_mtk : bool) (result : sentence) : bool :=
  match result with
  | ProprietarySentence => true
  | MTK011 | MTK010 => has_mtk
  | _ => false
  end.

(** A sentence that ends [update] with success. *)
Definition qualifies (has_mtk : bool) (wait_for : string) (result : sentence)
  : bool :=
  (can_satisfy result && names wait_for result) || is_notice has_mtk result.

(** A sentence known to neither the primary dispatch nor the fallback. *)
Definition unrecognized (has_mtk : bool) (result : sentence) : bool :=
  match result with
  | OtherSentence _ => true
  | MTK011 | MTK010 => negb has_mtk
  | _ => false
  end.

(** The attributes of a sentence can all be read. *)
Definition reads_ok (result : sentence) : bool :=
  match result with
  | GGA _ lat lon _ _ q =>
      match q, lat, lon with
      | PyNone, _, _ => true
      | _, Reads _, Reads _ => true
      | _, _, _ => false
      end
  | _ => true
  end.

(** The fold table: what a sentence changes in the fix state.  A GGA
    sentence with a fix whose latitude or longitude cannot be read changes
    the fields assigned before the failing read. *)
Definition fold_table (result : sentence) (self : PA1010D) : PA1010D :=
  match result with
  | GGA ts lat lon alt ns q =>
      match q with
      | PyNone =>
          mkPA1010D (timestamp self) (latitude self) (longitude self)
                    (altitude self) (PyInt 0) (PyInt 0) (speed_over_ground self)
                    (mode_fix_type self) (pdop self) (hdop self) (vdop self)
                    (_i2c_addr self) (_debug self)
      | _ =>
          match lat, lon with
          | Reads lat, Reads lon =>
              mkPA1010D ts lat lon alt ns q (speed_over_ground self)
                        (mode_fix_type self) (pdop self) (hdop self) (vdop self)
                        (_i2c_addr self) (_debug self)
          | Reads lat, Invalid _ =>
              mkPA1010D ts lat (longitude self) (altitude self) (num_sats self)
                        (gps_qual self) (speed_over_ground self)
                        (mode_fix_type self) (pdop self) (hdop self) (vdop self)
                        (_i2c_addr self) (_debug self)
          | Invalid _, _ =>
              mkPA1010D ts (latitude self) (longitude self) (altitude self)
                        (num_sats self) (gps_qual self) (speed_over_ground self)
                        (mode_fix_type self) (pdop self) (hdop self) (vdop self)
                        (_i2c_addr self) (_debug self)
          end
      end
  | GSA mft p h v =>
      mkPA1010D (timestamp self) (latitude self) (longitude self)
                (altitude self) (num_sats self) (gps_qual self)
                (speed_over_ground self) mft p h v (_i2c_addr self) (_debug self)
  | RMC spd =>
      mkPA1010D (timestamp self) (latitude self) (longitude self)
                (altitude self) (num_sats self) (gps_qual self) spd
                (mode_fix_type self) (pdop self) (hdop self) (vdop self)
                (_i2c_addr self) (_debug self)
  | _ => self
  end.

(** ** Auxiliary checks used by the proofs *)

Definition two_digits_ok (n : nat) : bool :=
  match encode_ascii (format_02X (N.of_nat n)) with
  | Some digits => bytes_eqb digits (two_hex_digits (N.of_nat n))
  | None => false
  end.

Definition hex_digit_plain (n : nat) : bool :=
  negb (Byte.eqb (byte_of_ascii (hex_digit (N.of_nat n))) STAR).

Fixpoint all_chars (P : ascii -> bool) (s : string) : bool :=
  match s with
  | EmptyString => true
  | String c rest => P c && all_chars P rest
  end.

(** An ASCII character that is neither of the two delimiters. *)
Definition plain (c : ascii) : bool :=
  is_ascii c && negb (Ascii.eqb c "$") && negb (Ascii.eqb c "*").

Definition example_device : PA1010D := init PA1010D_ADDR false.

(** ** Attribute snapshot *)

(** What an attribute of the driver object can hold: a fix value, the bus
    address, the debug flag or the [smbus.SMBus] handle. *)
Inductive attr : Type :=
| FieldValue (v : pyval)
| Address (n : N)
| Flag (b : bool)
| BusHandle.

Definition __slots__ : list string :=
  ["timestamp"; "latitude"; "longitude"; "altitude"; "num_sats"; "gps_qual";
   "speed_over_ground"; "mode_fix_type"; "pdop"; "hdop"; "vdop";
   "_i2c_addr"; "_i2c"; "_debug"]%string.

(** [getattr(self, slot)]: [None] stands for AttributeError. *)
Definition getattr (self : PA1010D) (slot : string) : option attr :=
  if String.eqb slot "timestamp" then Some (FieldValue (timestamp self))
  else if String.eqb slot "latitude" then Some (FieldValue (latitude self))
  else if String.eqb slot "longitude" then Some (FieldValue (longitude self))
  else if String.eqb slot "altitude" then Some (FieldValue (altitude self))
  else if String.eqb slot "num_sats" then Some (FieldValue (num_sats self))
  else if String.eqb slot "gps_qual" then Some (FieldValue (gps_qual self))
  else if String.eqb slot "speed_over_ground" then
    Some (FieldValue (speed_over_ground self))
  else if String.eqb slot "mode_fix_type" then
    Some (FieldValue (mode_fix_type self))
  else if String.eqb slot "pdop" then Some (FieldValue (pdop self))
  else if String.eqb slot "hdop" then Some (FieldValue (hdop self))
  else if String.eqb slot "vdop" then Some (FieldValue (vdop self))
  else if String.eqb slot "_i2c_addr" then Some (Address (_i2c_addr self))
  else if String.eqb slot "_i2c" then Some BusHandle
  else if String.eqb slot "_debug" then Some (Flag (_debug self))
  else None.

(** A [dict] as the list of its items in insertion order. *)
Fixpoint dict_set (k : string) (v : attr) (d : list (string * attr))
  : list (string * attr) :=
  match d with
  | [] => [(k, v)]
  | (k', v') :: rest =>
      if String.eqb k k' then (k, v) :: rest else (k', v') :: dict_set k v rest
  end.

Fixpoint dict_get (k : string) (d : list (string * attr)) : option attr :=
  match d with
  | [] => None
  | (k', v) :: rest => if String.eqb k k' then Some v else dict_get k rest
  end.

(** [dict((slot, getattr(self, slot)) for slot in slots)], filling [d]. *)
Fixpoint dict_of_slots (self : PA1010D) (slots : list string)
         (d : list (string * attr)) : option (list (string * attr)) :=
  match slots with
  | [] => Some d
  | slot :: rest =>
      match getattr self slot with
      | Some v => dict_of_slots self rest (dict_set slot v d)
      | None => None
      end
  end.

(** The [data] property. *)
Definition data (self : PA1010D) : option (list (string * attr)) :=
  dict_of_slots self __slots__ [].

(** ** Reference notions used to state further properties *)

(** The [n] bytes the receiver answers from position [k] on. *)
Definition received (rx : nat -> byte) (k n : nat) : list byte :=
  map rx (seq k n).

(** [line] is what the reader makes of the [n] bytes received from position
    [k] on, appended to [buf]: they end in CR LF, no shorter run does, and
    their text, stripped and freed of newlines, is [line]. *)
Definition line_of (rx : nat -> byte) (buf : list byte) (k n : nat)
           (line : string) : Prop :=
  bytes_eqb (last_two (buf ++ received rx k n)) [CR; LF] = true
  /\ (forall m, (0 < m < n)%nat ->
                bytes_eqb (last_two (buf ++ received rx k m)) [CR; LF] = false)
  /\ exists text, decode_ascii (buf ++ received rx k n) = Some text
                  /\ line = remove_newlines (strip text).

Definition not_newline (c : ascii) : bool := negb (Ascii.eqb c "010"%char).

(** An ASCII character that is not white space. *)
Definition visible (c : ascii) : bool := is_ascii c && negb (is_space c).

(** A visible character that is neither of the two delimiters. *)
Definition graphic (c : ascii) : bool := plain c && negb (is_space c).

Definition two_chars_ok (n : nat) : bool :=
  String.eqb (format_02X (N.of_nat n))
             (String (hex_digit (N.of_nat n / 16))
                     (String (hex_digit (N.of_nat n mod 16)) EmptyString))
  && visible (hex_digit (N.of_nat n / 16))
  && visible (hex_digit (N.of_nat n mod 16)).

(** The bytes of the write log, without their addresses. *)
Definition wire (w : world) : list byte := map snd (tx w).

Definition hex_value (c : ascii) : option N :=
  let n := N_of_ascii c in
  if ((48 <=? n) && (n <=? 57))%N then Some (n - 48)%N
  else if ((65 <=? n) && (n <=? 70))%N then Some (n - 55)%N
  else None.

(** [int(s, 16)] on a string of uppercase hexadecimal digits. *)
Fixpoint int_base16 (s : string) (acc : N) : option N :=
  match s with
  | EmptyString => Some acc
  | String c rest =>
      match hex_value c with
      | Some d => int_base16 rest (16 * acc + d)%N
      | None => None
      end
  end.

Definition hex_round_trip (n : nat) : bool :=
  match int_base16 (format_02X (N.of_nat n)) 0%N with
  | Some m => (m =? N.of_nat n)%N && (String.length (format_02X (N.of_nat n)) =? 2)%nat
  | None => false
  end.

Definition is_GGA (result : sentence) : bool :=
  match result with GGA _ _ _ _ _ _ => true | _ => false end.

Definition is_GSA (result : sentence) : bool :=
  match result with GSA _ _ _ _ => true | _ => false end.

Definition is_RMC (result : sentence) : bool :=
  match result with RMC _ => true | _ => false end.

(** The sentences that the loop of [update] parses, in the order in which it
    dispatches them: the same passes as [update_loop], keeping what [parse]
    returned. *)
Fixpoint sentences_read (clock : nat -> float) (rx : nat -> byte)
         (parse : string -> parsed) (has_mtk : bool) (fuel : nat)
         (wait_for : string) (timeout : float) (self : PA1010D) (w : world)
  : list sentence :=
  match fuel with
  | O => []
  | S fuel' =>
      let (now, w1) := time_time clock w in
      if ltb now timeout then
        match read_sentence clock rx fuel' 5 w1 with
        | (Raised (TimeoutError _), w2) =>
            sentences_read clock rx parse has_mtk fuel' wait_for timeout self w2
        | (Returned line, w2) =>
            match parse line with
            | ParseError =>
                sentences_read clock rx parse has_mtk fuel' wait_for timeout self
                  (if _debug self then print ("Parse error: " ++ line)%string w2
                   else w2)
            | ParseCrash _ _ => []
            | Parsed result =>
                result
                :: match update_dispatch has_mtk result wait_for line self w2 with
                   | (Continue, self', w3) =>
                       sentences_read clock rx parse has_mtk fuel' wait_for
                                      timeout self' w3
                   | _ => []
                   end
            end
        | _ => []
        end
      else []
  end.

(** The sentences that a call of [update] parses. *)
Definition update_reads (clock : nat -> float) (rx : nat -> byte)
           (parse : string -> parsed) (has_mtk : bool) (fuel : nat)
           (wait_for : string) (timeout : float) (self : PA1010D) (w : world)
  : list sentence :=
  let (now, w1) := time_time clock w in
  sentences_read clock rx parse has_mtk fuel wait_for (add timeout now) self w1.

Definition none_is (P : sentence -> bool) (l : list sentence) : bool :=
  forallb (fun result => negb (P result)) l.

(** ** Reading a decimal number *)

Definition digit_value (c : ascii) : option Z :=
  let n := N_of_ascii c in
  if ((48 <=? n) && (n <=? 57))%N then Some (Z.of_N (n - 48)) else None.

Fixpoint read_digits (s : string) (acc : Z) : option Z :=
  match s with
  | EmptyString => Some acc
  | String c rest =>
      match digit_value c with
      | Some d => read_digits rest (10 * acc + d)%Z
      | None => None
      end
  end.

(** [int(s)] on a string made of an optional minus sign and digits. *)
Definition int_base10 (s : string) : option Z :=
  match s with
  | EmptyString => None
  | String c rest =>
      if Ascii.eqb c "-" then
        match rest with
        | EmptyString => None
        | _ => option_map Z.opp (read_digits rest 0%Z)
        end
      else read_digits s 0%Z
  end.

(** The way Python writes an int: no plus sign, no leading zero, and a minus
    sign only in front of a number that is not zero. *)
Definition canonical_decimal (s : string) : bool :=
  match s with
  | EmptyString => false
  | String c rest =>
      if Ascii.eqb c "-" then
        match rest with
        | EmptyString => false
        | String d _ => negb (Ascii.eqb d "0")
        end
      else if Ascii.eqb c "0" then
        match rest with EmptyString => true | _ => false end
      else true
  end.

(** The weight of the digit in front of the digits [s]. *)
Definition weight (s : string) : Z := (10 ^ Z.of_nat (String.length s))%Z.

(** [s] does not start with the digit zero. *)
Definition leading (s : string) : bool :=
  match s with
  | EmptyString => false
  | String c _ => negb (Ascii.eqb c "0")
  end.

(** * Properties *)

(** ** Bytes *)

Lemma bytes_eqb_eq (a b : list byte) : bytes_eqb a b = true <-> a = b.
Proof.
  revert b; induction a as [|x a IH]; intros [|y b]; simpl;
    try (split; [discriminate | discriminate]); try tauto.
  rewrite andb_true_iff, IH. split.
  - intros [Hxy ->]. apply Byte.byte_dec_bl in Hxy. now subst.
  - intros [= -> ->]. split; [now apply Byte.byte_dec_lb | reflexivity].
Qed.

Lemma byte_eqb_neq (a b : byte) : a <> b -> Byte.eqb a b = false.
Proof.
  intros H. destruct (Byte.eqb a b) eqn:E; [|reflexivity].
  apply Byte.byte_dec_bl in E. contradiction.
Qed.

Lemma startswith_dollar (p : list byte) :
  (if startswith p [DOLLAR] then skipn 1 p else p) = drop_leading_dollar p.
Proof.
  destruct p as [|b rest]; [reflexivity|].
  unfold startswith; simpl.
  destruct (Byte.eqb b DOLLAR); reflexivity.
Qed.

Lemma endswith_star (p : list byte) :
  (if endswith p [STAR] then firstn (List.length p - 1) p else p)
  = drop_trailing_star p.
Proof.
  induction p as [|b rest IH]; [reflexivity|].
  destruct rest as [|c rest'].
  - unfold endswith; simpl. destruct (Byte.eqb b STAR); reflexivity.
  - change (drop_trailing_star (b :: c :: rest'))
      with (b :: drop_trailing_star (c :: rest')).
    rewrite <- IH. unfold endswith.
    change (List.length (b :: c :: rest')) with (S (S (List.length rest'))).
    change (List.length (c :: rest')) with (S (List.length rest')).
    change (List.length [STAR]) with 1%nat.
    replace (S (S (List.length rest')) - 1)%nat with (S (S (List.length rest') - 1))%nat
      by lia.
    change (1 <=? S (S (List.length rest')))%nat with true.
    change (1 <=? S (List.length rest'))%nat with true.
    rewrite skipn_cons, firstn_cons.
    destruct (true && bytes_eqb (skipn (S (List.length rest') - 1) (c :: rest')) [STAR]);
      reflexivity.
Qed.

Lemma send_normalizes (p : list byte) :
  (let c := if startswith p [DOLLAR] then skipn 1 p else p in
   if endswith c [STAR] then firstn (List.length c - 1) c else c)
  = spec_normalize p.
Proof. cbv zeta. rewrite startswith_dollar. apply endswith_star. Qed.

(** ** Checksum *)

Lemma log2_byte_range (a : N) : (a < 256 -> N.log2 a < 8)%N.
Proof.
  intros H. destruct (N.eq_dec a 0) as [->|Hne]; [reflexivity|].
  apply N.log2_lt_pow2; [lia | exact H].
Qed.

Lemma lxor_byte_range (a b : N) : (a < 256 -> b < 256 -> N.lxor a b < 256)%N.
Proof.
  intros Ha Hb.
  destruct (N.eq_dec (N.lxor a b) 0) as [->|Hne]; [reflexivity|].
  change 256%N with (2 ^ 8)%N. apply N.log2_lt_pow2; [lia|].
  pose proof (N.log2_lxor a b) as Hx.
  pose proof (log2_byte_range a Ha). pose proof (log2_byte_range b Hb). lia.
Qed.

Lemma spec_checksum_range (p : list byte) : (spec_checksum p < 256)%N.
Proof.
  induction p as [|b p IH]; simpl; [reflexivity|].
  apply lxor_byte_range; [|exact IH].
  pose proof (Byte.to_N_bounded b). lia.
Qed.

Lemma xor_fold_left (p : list byte) (acc : N) :
  fold_left (fun checksum char => N.lxor checksum (Byte.to_N char)) p acc
  = N.lxor acc (spec_checksum p).
Proof.
  revert acc. induction p as [|b p IH]; intros acc; simpl.
  - now rewrite N.lxor_0_r.
  - rewrite IH. now rewrite N.lxor_assoc.
Qed.

Lemma xor_loop_spec (p : list byte) : xor_loop p = spec_checksum p.
Proof. unfold xor_loop. rewrite xor_fold_left. apply N.lxor_0_l. Qed.

(** ** The [02X] format on a byte value *)

Lemma two_digits_table : forallb two_digits_ok (seq 0 256) = true.
Proof. vm_compute. reflexivity. Qed.

Lemma format_02X_byte (c : N) :
  (c < 256)%N -> encode_ascii (format_02X c) = Some (two_hex_digits c).
Proof.
  intros Hc.
  pose proof two_digits_table as T. rewrite forallb_forall in T.
  specialize (T (N.to_nat c)).
  assert (Hin : In (N.to_nat c) (seq 0 256)) by (apply in_seq; lia).
  apply T in Hin. unfold two_digits_ok in Hin. rewrite N2Nat.id in Hin.
  destruct (encode_ascii (format_02X c)) as [d|]; [|discriminate].
  apply bytes_eqb_eq in Hin. now subst.
Qed.

Lemma hex_digit_table : forallb hex_digit_plain (seq 0 16) = true.
Proof. vm_compute. reflexivity. Qed.

Lemma hex_digit_not_star (c : N) :
  Byte.eqb (byte_of_ascii (hex_digit (c mod 16))) STAR = false.
Proof.
  pose proof hex_digit_table as T. rewrite forallb_forall in T.
  assert (Hlt : (c mod 16 < 16)%N) by (apply N.mod_lt; discriminate).
  generalize dependent (c mod 16)%N. intros m Hlt.
  specialize (T (N.to_nat m)).
  assert (Hin : In (N.to_nat m) (seq 0 16)) by (apply in_seq; lia).
  apply T in Hin. unfold hex_digit_plain in Hin. rewrite N2Nat.id in Hin.
  now apply negb_true_iff in Hin.
Qed.

(** ** Writing a sentence *)

Lemma write_sentence_sent (self : PA1010D) (bs : list byte) (w : world) :
  _write_sentence self bs w = sent (_i2c_addr self) bs w.
Proof.
  revert w. induction bs as [|b bs IH]; intros w; simpl.
  - unfold sent; simpl. rewrite app_nil_r. now destruct w.
  - rewrite IH. unfold sent, i2c_write_byte; simpl.
    now rewrite <- app_assoc.
Qed.

Lemma send_command_bytes_frame (self : PA1010D) (p : list byte) (flag : bool)
      (w : world) :
  send_command_bytes self p flag w
  = (Returned tt, sent (_i2c_addr self) (spec_frame p flag) w).
Proof.
  unfold send_command_bytes. cbv zeta.
  pose proof (send_normalizes p) as Hn. cbv zeta in Hn. rewrite Hn.
  unfold spec_frame. cbv zeta. destruct flag.
  - rewrite xor_loop_spec.
    rewrite (format_02X_byte _ (spec_checksum_range (spec_normalize p))).
    rewrite write_sentence_sent. do 2 f_equal.
    now rewrite <- !app_assoc.
  - rewrite write_sentence_sent. reflexivity.
Qed.

Lemma send_command_frame (self : PA1010D) (cmd : command) (p : list byte)
      (flag : bool) (w : world) :
  command_bytes cmd = Some p ->
  send_command self cmd flag w
  = (Returned tt, sent (_i2c_addr self) (spec_frame p flag) w).
Proof.
  intros H. destruct cmd as [s|b]; simpl in H |- *.
  - rewrite H. apply send_command_bytes_frame.
  - injection H as ->. apply send_command_bytes_frame.
Qed.

(** ** Commands with and without delimiters *)

Lemma drop_trailing_star_snoc (x : list byte) (d : byte) :
  drop_trailing_star (x ++ [d]) = if Byte.eqb d STAR then x else x ++ [d].
Proof.
  induction x as [|b x IH]; [reflexivity|].
  change ((b :: x) ++ [d]) with (b :: (x ++ [d])).
  unfold drop_trailing_star; fold drop_trailing_star.
  rewrite IH. destruct (x ++ [d]) eqn:E.
  - destruct x; discriminate E.
  - rewrite <- E. destruct (Byte.eqb d STAR); reflexivity.
Qed.

Lemma normalize_bare (p : list byte) :
  startswith p [DOLLAR] = false -> endswith p [STAR] = false ->
  spec_normalize p = p.
Proof.
  intros Hs He. unfold spec_normalize.
  pose proof (startswith_dollar p) as H1. rewrite Hs in H1. rewrite <- H1.
  pose proof (endswith_star p) as H2. rewrite He in H2. now rewrite <- H2.
Qed.

Lemma normalize_dollar_star (p : list byte) :
  spec_normalize ([DOLLAR] ++ p ++ [STAR]) = p.
Proof.
  unfold spec_normalize; simpl. rewrite drop_trailing_star_snoc. reflexivity.
Qed.

Lemma normalize_dollar (p : list byte) :
  endswith p [STAR] = false -> spec_normalize ([DOLLAR] ++ p) = p.
Proof.
  intros He. unfold spec_normalize; simpl.
  pose proof (endswith_star p) as H2. rewrite He in H2. now rewrite <- H2.
Qed.

Lemma normalize_star (p : list byte) :
  startswith p [DOLLAR] = false -> spec_normalize (p ++ [STAR]) = p.
Proof.
  intros Hs. unfold spec_normalize.
  destruct p as [|b p]; [reflexivity|].
  unfold startswith in Hs; simpl in Hs.
  change ((b :: p) ++ [STAR]) with (b :: (p ++ [STAR])).
  unfold drop_leading_dollar.
  destruct (Byte.eqb b DOLLAR); [discriminate Hs|].
  change (b :: (p ++ [STAR])) with ((b :: p) ++ [STAR]).
  now rewrite drop_trailing_star_snoc.
Qed.

Lemma normalize_wrapped (p : list byte) (c : N) :
  spec_normalize ([DOLLAR] ++ p ++ [STAR] ++ two_hex_digits c)
  = p ++ [STAR] ++ two_hex_digits c.
Proof.
  unfold spec_normalize, two_hex_digits; simpl.
  replace (p ++ STAR :: [byte_of_ascii (hex_digit (c / 16));
                         byte_of_ascii (hex_digit (c mod 16))])
    with ((p ++ [STAR; byte_of_ascii (hex_digit (c / 16))])
            ++ [byte_of_ascii (hex_digit (c mod 16))])
    by now rewrite <- app_assoc.
  rewrite drop_trailing_star_snoc. now rewrite hex_digit_not_star.
Qed.

Lemma frame_wrapped (p : list byte) :
  startswith p [DOLLAR] = false -> endswith p [STAR] = false ->
  spec_frame ([DOLLAR] ++ p ++ [STAR] ++ two_hex_digits (spec_checksum p)) false
  = spec_frame p true.
Proof.
  intros Hs He. unfold spec_frame. cbv zeta.
  rewrite normalize_wrapped, (normalize_bare p Hs He).
  simpl. now rewrite <- !app_assoc.
Qed.

(** ** Decimal rendering and the PPS payload *)

Lemma all_chars_app (P : ascii -> bool) (a b : string) :
  all_chars P (a ++ b)%string = all_chars P a && all_chars P b.
Proof.
  induction a as [|c a IH]; simpl; [reflexivity|].
  now rewrite IH, andb_assoc.
Qed.

Lemma uint_plain (d : Decimal.uint) :
  all_chars plain (NilEmpty.string_of_uint d) = true.
Proof. induction d; simpl; auto. Qed.

Lemma str_int_plain (z : Z) : all_chars plain (str_int z) = true.
Proof.
  unfold str_int. destruct (Z.to_int z) as [d|d]; simpl.
  - destruct d; try reflexivity; apply (uint_plain (_ d)).
  - destruct d; try reflexivity; apply (uint_plain (_ d)).
Qed.

Lemma encode_plain (s : string) :
  all_chars plain s = true -> encode_ascii s = Some (list_byte_of_string s).
Proof.
  induction s as [|c s IH]; simpl; [reflexivity|].
  intros H. apply andb_true_iff in H as [Hc Hs].
  unfold plain in Hc. apply andb_true_iff in Hc as [Hc _].
  apply andb_true_iff in Hc as [Hc _].
  rewrite Hc, (IH Hs). reflexivity.
Qed.

Lemma byte_of_plain (c : ascii) :
  plain c = true ->
  Byte.eqb (byte_of_ascii c) DOLLAR = false
  /\ Byte.eqb (byte_of_ascii c) STAR = false.
Proof.
  intros H. unfold plain in H.
  apply andb_true_iff in H as [H Hstar]. apply andb_true_iff in H as [_ Hdollar].
  apply negb_true_iff, Ascii.eqb_neq in Hstar, Hdollar.
  split; apply byte_eqb_neq; intros E;
    apply (f_equal ascii_of_byte) in E; rewrite ascii_of_byte_of_ascii in E;
    [apply Hdollar | apply Hstar]; exact E.
Qed.

Lemma normalize_plain (s : string) :
  all_chars plain s = true ->
  spec_normalize (list_byte_of_string s) = list_byte_of_string s.
Proof.
  intros H. unfold spec_normalize.
  assert (Hd : drop_leading_dollar (list_byte_of_string s) = list_byte_of_string s).
  { destruct s as [|c s]; [reflexivity|]. simpl in H.
    apply andb_true_iff in H as [Hc _]. apply byte_of_plain in Hc as [Hc _].
    change (list_byte_of_string (String c s))
      with (byte_of_ascii c :: list_byte_of_string s).
    unfold drop_leading_dollar. now rewrite Hc. }
  rewrite Hd. clear Hd.
  induction s as [|c s IH]; [reflexivity|].
  simpl in H. apply andb_true_iff in H as [Hc Hs].
  apply byte_of_plain in Hc as [_ Hc].
  change (list_byte_of_string (String c s))
    with (byte_of_ascii c :: list_byte_of_string s).
  unfold drop_trailing_star; fold drop_trailing_star.
  rewrite (IH Hs), Hc. now destruct (list_byte_of_string s).
Qed.

(** ** Reading back what [str] writes *)

Local Open Scope Z_scope.

Lemma weight_pos s : 0 < weight s.
Proof. unfold weight. apply Z.pow_pos_nonneg; lia. Qed.

Lemma weight_cons c s : weight (String c s) = 10 * weight s.
Proof.
  unfold weight. simpl String.length. rewrite Nat2Z.inj_succ, Z.pow_succ_r; lia.
Qed.

Lemma digit_value_range c d : digit_value c = Some d -> 0 <= d <= 9.
Proof.
  unfold digit_value.
  destruct ((48 <=? N_of_ascii c) && (N_of_ascii c <=? 57))%N eqn:E; [|discriminate].
  intros [= <-]. apply andb_true_iff in E as [E1 E2].
  apply N.leb_le in E1, E2. lia.
Qed.

Lemma digit_value_inj c c' d :
  digit_value c = Some d -> digit_value c' = Some d -> c = c'.
Proof.
  unfold digit_value.
  destruct ((48 <=? N_of_ascii c) && (N_of_ascii c <=? 57))%N eqn:E; [|discriminate].
  destruct ((48 <=? N_of_ascii c') && (N_of_ascii c' <=? 57))%N eqn:E'; [|discriminate].
  intros [= <-] [= H].
  apply andb_true_iff in E as [E1 _]. apply andb_true_iff in E' as [E1' _].
  apply N.leb_le in E1, E1'.
  assert (Hn : N_of_ascii c = N_of_ascii c') by lia.
  rewrite <- (ascii_N_embedding c), <- (ascii_N_embedding c'). now rewrite Hn.
Qed.

Lemma read_digits_String c s acc :
  read_digits (String c s) acc
  = match digit_value c with
    | Some d => read_digits s (10 * acc + d)
    | None => None
    end.
Proof. reflexivity. Qed.

Lemma read_digits_acc s : forall acc,
  read_digits s acc
  = option_map (fun v => acc * weight s + v) (read_digits s 0).
Proof.
  induction s as [|c s IH]; intros acc.
  - unfold weight. simpl. f_equal. lia.
  - rewrite !read_digits_String. destruct (digit_value c) as [d|]; [|reflexivity].
    rewrite (IH (10 * acc + d)), (IH (10 * 0 + d)), weight_cons.
    destruct (read_digits s 0) as [v|]; [|reflexivity].
    cbn [option_map]. f_equal. ring.
Qed.

Lemma read_digits_range s : forall v,
  read_digits s 0 = Some v -> 0 <= v < weight s.
Proof.
  induction s as [|c s IH]; intros v H.
  - injection H as <-. unfold weight. simpl. lia.
  - rewrite read_digits_String in H.
    destruct (digit_value c) as [d|] eqn:D; [|discriminate H].
    rewrite read_digits_acc in H.
    destruct (read_digits s 0) as [v0|]; [|discriminate H].
    cbn [option_map] in H. injection H as <-. specialize (IH v0 eq_refl).
    apply digit_value_range in D. rewrite weight_cons. nia.
Qed.

Lemma read_digits_cons c s v :
  read_digits (String c s) 0 = Some v ->
  exists d v0, digit_value c = Some d /\ read_digits s 0 = Some v0
               /\ v = d * weight s + v0.
Proof.
  rewrite read_digits_String. destruct (digit_value c) as [d|]; [|discriminate].
  rewrite read_digits_acc.
  destruct (read_digits s 0) as [v0|]; [|discriminate].
  cbn [option_map]. intros [= <-]. exists d, v0. split; [reflexivity|]. split; [reflexivity|]. ring.
Qed.

Lemma read_digits_same_length a : forall b v,
  String.length a = String.length b ->
  read_digits a 0 = Some v -> read_digits b 0 = Some v -> a = b.
Proof.
  induction a as [|c a IH]; intros [|c' b] v Hl Ha Hb; try discriminate Hl.
  - reflexivity.
  - apply read_digits_cons in Ha as (d & va & Hd & Ha & Hv).
    apply read_digits_cons in Hb as (d' & vb & Hd' & Hb & Hv').
    injection Hl as Hl.
    assert (Hw : weight a = weight b) by (unfold weight; now rewrite Hl).
    pose proof (read_digits_range _ _ Ha). pose proof (read_digits_range _ _ Hb).
    pose proof (digit_value_range _ _ Hd). pose proof (digit_value_range _ _ Hd').
    pose proof (weight_pos b). rewrite Hw in *.
    assert (d = d') by nia. subst d'.
    assert (va = vb) by nia. subst vb.
    f_equal; [exact (digit_value_inj _ _ _ Hd Hd') | exact (IH b va Hl Ha Hb)].
Qed.

(** A digit string that does not begin with 0. *)
Lemma leading_value s v :
  leading s = true -> read_digits s 0 = Some v -> weight s <= 10 * v.
Proof.
  destruct s as [|c s]; [discriminate|]. simpl leading. intros Hc H.
  apply read_digits_cons in H as (d & v0 & Hd & H0 & ->).
  pose proof (read_digits_range _ _ H0). pose proof (digit_value_range _ _ Hd).
  rewrite weight_cons.
  assert (d <> 0).
  { intros ->. apply negb_true_iff, Ascii.eqb_neq in Hc. apply Hc.
    apply (digit_value_inj c "0" 0 Hd). reflexivity. }
  pose proof (weight_pos s). nia.
Qed.

Lemma weight_mono a b :
  (String.length a < String.length b)%nat -> 10 * weight a <= weight b.
Proof.
  intros H. unfold weight.
  rewrite <- Z.pow_succ_r by lia. apply Z.pow_le_mono_r; lia.
Qed.

Lemma leading_unique a b v :
  leading a = true -> leading b = true ->
  read_digits a 0 = Some v -> read_digits b 0 = Some v -> a = b.
Proof.
  intros La Lb Ha Hb.
  apply (read_digits_same_length a b v); [|exact Ha|exact Hb].
  pose proof (leading_value _ _ La Ha). pose proof (leading_value _ _ Lb Hb).
  pose proof (read_digits_range _ _ Ha). pose proof (read_digits_range _ _ Hb).
  destruct (Nat.lt_trichotomy (String.length a) (String.length b)) as [H3|[H3|H3]].
  - pose proof (weight_mono _ _ H3). lia.
  - exact H3.
  - pose proof (weight_mono _ _ H3). lia.
Qed.

Ltac eval_digit :=
  match goal with
  | |- context [digit_value ?c] =>
      let t := eval vm_compute in (digit_value c) in
      change (digit_value c) with t; cbv iota
  end.

Lemma read_uint_acc (d : Decimal.uint) : forall acc : positive,
  read_digits (NilEmpty.string_of_uint d) (Z.pos acc)
  = Some (Z.pos (Pos.of_uint_acc d acc)).
Proof.
  induction d; intros acc; cbn [NilEmpty.string_of_uint Pos.of_uint_acc];
    [reflexivity | ..];
    rewrite read_digits_String; eval_digit; rewrite <- IHd; f_equal; lia.
Qed.

Lemma read_uint (d : Decimal.uint) :
  read_digits (NilEmpty.string_of_uint d) 0 = Some (Z.of_N (Pos.of_uint d)).
Proof.
  induction d; cbn [NilEmpty.string_of_uint Pos.of_uint];
    [reflexivity | ..];
    rewrite read_digits_String; eval_digit;
    [exact IHd | ..];
    match goal with
    | |- read_digits _ ?x = Some (Z.of_N (N.pos (Pos.of_uint_acc _ ?y))) =>
        change x with (Z.pos y)
    end; apply read_uint_acc.
Qed.

Lemma nzhead_not_D0 (d e : Decimal.uint) : Decimal.nzhead d <> Decimal.D0 e.
Proof. induction d; simpl; try discriminate. exact IHd. Qed.

Lemma to_uint_leading (p : positive) :
  leading (NilEmpty.string_of_uint (Pos.to_uint p)) = true.
Proof.
  pose proof (DecimalPos.Unsigned.to_of (Pos.to_uint p)) as H.
  rewrite DecimalPos.Unsigned.of_to in H. simpl N.to_uint in H.
  pose proof (DecimalPos.Unsigned.to_uint_nonzero p) as Hz.
  pose proof (DecimalPos.Unsigned.to_uint_nonnil p) as Hn.
  destruct (Pos.to_uint p) as [|d|d|d|d|d|d|d|d|d|d]; try reflexivity.
  - now contradiction Hn.
  - exfalso. unfold Decimal.unorm in H. simpl Decimal.nzhead in H.
    destruct (Decimal.nzhead d) eqn:E.
    + exact (Hz H).
    + exact (nzhead_not_D0 d u E).
    + discriminate H. + discriminate H. + discriminate H. + discriminate H.
    + discriminate H. + discriminate H. + discriminate H. + discriminate H.
    + discriminate H.
Qed.

Lemma str_int_cases (z : Z) :
  match z with
  | 0 => str_int z = "0"%string
  | Z.pos p => str_int z = NilEmpty.string_of_uint (Pos.to_uint p)
  | Z.neg p => str_int z = String "-" (NilEmpty.string_of_uint (Pos.to_uint p))
  end.
Proof.
  destruct z as [|p|p]; [reflexivity | |];
    unfold str_int; simpl; unfold NilZero.string_of_uint;
    pose proof (DecimalPos.Unsigned.to_uint_nonnil p) as Hn;
    destruct (Pos.to_uint p); try reflexivity; now contradiction Hn.
Qed.

Lemma read_to_uint (p : positive) :
  read_digits (NilEmpty.string_of_uint (Pos.to_uint p)) 0 = Some (Z.pos p).
Proof. rewrite read_uint, DecimalPos.Unsigned.of_to. reflexivity. Qed.

Lemma leading_not_minus (s : string) (v : Z) :
  read_digits s 0 = Some v ->
  match s with
  | EmptyString => True
  | String c _ => Ascii.eqb c "-" = false
  end.
Proof.
  destruct s as [|c s]; [trivial|]. rewrite read_digits_String.
  destruct (Ascii.eqb c "-") eqn:E; [|trivial].
  apply Ascii.eqb_eq in E. subst c. discriminate.
Qed.

Lemma str_int_reads_back (z : Z) :
  int_base10 (str_int z) = Some z /\ canonical_decimal (str_int z) = true.
Proof.
  pose proof (str_int_cases z) as H. destruct z as [|p|p]; rewrite H.
  - split; reflexivity.
  - pose proof (read_to_uint p) as R. pose proof (to_uint_leading p) as L.
    pose proof (leading_not_minus _ _ R) as M.
    destruct (NilEmpty.string_of_uint (Pos.to_uint p)) as [|c s]; [discriminate L|].
    unfold int_base10, canonical_decimal. rewrite M. split; [exact R|].
    simpl leading in L. apply negb_true_iff in L. now rewrite L.
  - pose proof (read_to_uint p) as R. pose proof (to_uint_leading p) as L.
    destruct (NilEmpty.string_of_uint (Pos.to_uint p)) as [|c s]; [discriminate L|].
    unfold int_base10, canonical_decimal.
    change (Ascii.eqb "-" "-") with true. cbv iota. rewrite R. split; [reflexivity|].
    exact L.
Qed.

Lemma canonical_unique (a : string) (z : Z) :
  int_base10 a = Some z -> canonical_decimal a = true -> a = str_int z.
Proof.
  intros H C. pose proof (str_int_cases z) as S.
  destruct a as [|c r]; [discriminate C|].
  unfold int_base10 in H. unfold canonical_decimal in C.
  destruct (Ascii.eqb c "-") eqn:E.
  - apply Ascii.eqb_eq in E. subst c.
    destruct r as [|d r']; [discriminate C|].
    destruct (read_digits (String d r') 0) as [v|] eqn:R; [|discriminate H].
    injection H as <-.
    assert (L : leading (String d r') = true) by exact C.
    pose proof (leading_value _ _ L R) as Hv. pose proof (weight_pos (String d r')).
    destruct v as [|p|p]; try lia.
    change (- Z.pos p) with (Z.neg p) in *. cbv iota in S. rewrite S. f_equal.
    exact (leading_unique _ _ _ L (to_uint_leading p) R (read_to_uint p)).
  - destruct (Ascii.eqb c "0") eqn:E0.
    + apply Ascii.eqb_eq in E0. subst c. destruct r; [|discriminate C].
      injection H as <-. reflexivity.
    + assert (L : leading (String c r) = true) by (simpl; now rewrite E0).
      pose proof (leading_value _ _ L H) as Hv. pose proof (weight_pos (String c r)).
      destruct z as [|p|p]; try lia.
      rewrite S.
      exact (leading_unique _ _ _ L (to_uint_leading p) H (read_to_uint p)).
Qed.

Local Close Scope Z_scope.

Lemma pps_sentence_plain (m : PPS) (z : Z) :
  all_chars plain (pps_sentence m (PulseInt z)) = true.
Proof.
  unfold pps_sentence, format_pulse.
  rewrite !all_chars_app, !str_int_plain. reflexivity.
Qed.

Lemma mode_value_digit (m : PPS) :
  str_int (PPS_value m)
  = match m with
    | DISABLE => "0"
    | AFTER_FIRST_FIX => "1"
    | ONLY_3D => "2"
    | ONLY_2D_3D => "3"
    | ALWAYS => "4"
    end.
Proof. destruct m; reflexivity. Qed.

(** ** Frames on the bus are told apart *)

Lemma map_pair_inj (addr : N) (a b : list byte) :
  map (pair addr) a = map (pair addr) b -> a = b.
Proof.
  revert b. induction a as [|x a IH]; intros [|y b] E; simpl in E;
    try discriminate E.
  - reflexivity.
  - injection E as -> E. f_equal. now apply IH.
Qed.

Lemma app_same_tail_length (a b t1 t2 : list byte) :
  a ++ t1 = b ++ t2 -> List.length t1 = List.length t2 -> a = b.
Proof.
  intros H Hl.
  assert (Hab : List.length a = List.length b).
  { apply (f_equal (@List.length byte)) in H. rewrite !length_app in H. lia. }
  clear Hl. revert b H Hab.
  induction a as [|x a IH]; intros [|y b] H Hab; simpl in *; try discriminate Hab.
  - reflexivity.
  - injection H as -> H. f_equal. apply IH; [exact H | lia].
Qed.

Lemma sent_frames_equal (addr : N) (f g : list byte) (w : world) :
  (Returned tt, sent addr f w) = (Returned tt, sent addr g w) -> f = g.
Proof.
  intros H. apply (f_equal snd) in H. apply (f_equal tx) in H.
  unfold sent in H. cbn [snd tx] in H.
  apply app_inv_head in H. now apply map_pair_inj in H.
Qed.

(** ** Command encoder: claims *)

(** C1, as stated, fails for text outside ASCII: [encode("ascii")] raises
    and nothing is written. *)
Lemma non_ascii_text_is_rejected :
  let cmd := Text (String "P" (String "233" EmptyString)) in
  send_command example_device cmd true world0 = (Raised UnicodeEncodeError, world0)
  /\ send_command example_device cmd false world0
     = (Raised UnicodeEncodeError, world0)
  /\ tx (snd (send_command example_device cmd true world0)) = [].
Proof. cbv zeta. repeat split. Qed.

(** C1, amended. For a command given as bytes, or as text that encodes to
    ASCII, standing for the bytes [payload], [send_command] with the checksum
    writes, one bus write per byte, [$], the normalized payload, [*], the XOR
    of the normalized payload bytes as two uppercase zero-padded hexadecimal
    digits, CR and LF; without the checksum it writes [$], the normalized
    payload, CR and LF.  Normalization drops one leading [$] and one trailing
    [*].  Text with a character outside ASCII is refused with an encoding
    error before anything is written. *)
Theorem send_command_writes_frame :
  forall (self : PA1010D) (cmd : command) (w : world),
    (forall payload : list byte,
        command_bytes cmd = Some payload ->
        let n := spec_normalize payload in
        send_command self cmd true w
        = (Returned tt,
           sent (_i2c_addr self)
                ([DOLLAR] ++ n ++ [STAR] ++ two_hex_digits (spec_checksum n)
                 ++ [CR; LF])
                w)
        /\ send_command self cmd false w
           = (Returned tt, sent (_i2c_addr self) ([DOLLAR] ++ n ++ [CR; LF]) w))
    /\ (command_bytes cmd = None ->
        forall flag : bool,
          send_command self cmd flag w = (Raised UnicodeEncodeError, w)).
Proof.
  intros self cmd w. split.
  - intros payload H n. split.
    + rewrite (send_command_frame self cmd payload true w H). reflexivity.
    + rewrite (send_command_frame self cmd payload false w H). reflexivity.
  - intros H flag. destruct cmd as [s|b]; simpl in H |- *.
    + now rewrite H.
    + discriminate H.
Qed.

Lemma send_command_writes_frame_witness :
  send_command example_device (Text "$PMTK285,4,100*") true world0
  = (Returned tt,
     sent PA1010D_ADDR
          (list_byte_of_string ("$PMTK285,4,100*38" ++ CRLF)%string) world0)
  /\ send_command example_device
                  (Text (String "P" (String "233" EmptyString))) true world0
     = (Raised UnicodeEncodeError, world0).
Proof.
  split.
  - exact (proj1 (proj1 (send_command_writes_frame example_device
                           (Text "$PMTK285,4,100*") world0)
                        (list_byte_of_string "$PMTK285,4,100*") eq_refl)).
  - exact (proj2 (send_command_writes_frame example_device
                    (Text (String "P" (String "233" EmptyString))) world0)
                 eq_refl true).
Defined.

(** C3, as stated, fails: a command that already carries its two checksum
    digits is not recognised, the digits are taken for payload and a second
    checksum is appended. *)
Lemma wrapped_command_gets_second_checksum :
  let p := list_byte_of_string "PMTK285,4,100" in
  let wrapped := [DOLLAR] ++ p ++ [STAR] ++ two_hex_digits (spec_checksum p) in
  wrapped = list_byte_of_string "$PMTK285,4,100*38"
  /\ send_command example_device (Bytes wrapped) true world0
     = (Returned tt,
        sent PA1010D_ADDR
             (list_byte_of_string ("$PMTK285,4,100*38*19" ++ CRLF)%string) world0)
  /\ send_command example_device (Bytes wrapped) true world0
     <> send_command example_device (Bytes p) true world0.
Proof.
  cbv zeta. split; [reflexivity|]. split; [reflexivity|].
  vm_compute. discriminate.
Qed.

(** C3, amended. For a payload [p] that has no leading [$] and no trailing [*]
    of its own, the commands [$p*], [$p] and [p*] are written exactly as [p]
    is, with or without the checksum.  The fully wrapped form [$p*hh], [hh]
    being the two checksum digits of [p], is not recognised: sent with the
    checksum it is written as [$p*hh*kk], [kk] being the checksum of [p*hh],
    which is not what [p] sent with the checksum writes; only sent without
    the checksum is it written as [p] sent with the checksum is. *)
Theorem send_command_ignores_delimiters :
  forall (self : PA1010D) (bare framed : command) (p : list byte)
         (flag : bool) (w : world),
    command_bytes bare = Some p ->
    startswith p [DOLLAR] = false ->
    endswith p [STAR] = false ->
    (command_bytes framed = Some ([DOLLAR] ++ p ++ [STAR])
     \/ command_bytes framed = Some ([DOLLAR] ++ p)
     \/ command_bytes framed = Some (p ++ [STAR]) ->
     send_command self framed flag w = send_command self bare flag w)
    /\ (let hh := two_hex_digits (spec_checksum p) in
        command_bytes framed = Some ([DOLLAR] ++ p ++ [STAR] ++ hh) ->
        send_command self framed false w = send_command self bare true w
        /\ send_command self framed true w
           = (Returned tt,
              sent (_i2c_addr self)
                   ([DOLLAR] ++ p ++ [STAR] ++ hh ++ [STAR]
                    ++ two_hex_digits (spec_checksum (p ++ [STAR] ++ hh))
                    ++ [CR; LF])
                   w)
        /\ send_command self framed true w <> send_command self bare true w).
Proof.
  intros self bare framed p flag w Hb Hs He. split.
  - intros Hf. rewrite (send_command_frame self bare p flag w Hb).
    assert (Hn : forall q, command_bytes framed = Some q -> spec_normalize q = p ->
                           send_command self framed flag w
                           = (Returned tt, sent (_i2c_addr self) (spec_frame p flag) w)).
    { intros q Hq Hn. rewrite (send_command_frame self framed q flag w Hq).
      unfold spec_frame. cbv zeta. rewrite Hn, (normalize_bare p Hs He). reflexivity. }
    destruct Hf as [Hf|[Hf|Hf]].
    + apply (Hn _ Hf). apply normalize_dollar_star.
    + apply (Hn _ Hf). now apply normalize_dollar.
    + apply (Hn _ Hf). now apply normalize_star.
  - intros hh Hf.
    assert (Htwice : send_command self framed true w
                     = (Returned tt,
                        sent (_i2c_addr self)
                             ([DOLLAR] ++ p ++ [STAR] ++ hh ++ [STAR]
                              ++ two_hex_digits (spec_checksum (p ++ [STAR] ++ hh))
                              ++ [CR; LF])
                             w)).
    { rewrite (send_command_frame self framed _ true w Hf).
      unfold spec_frame. cbv zeta. unfold hh. rewrite normalize_wrapped.
      do 2 f_equal. cbn [app]. rewrite <- !app_assoc. reflexivity. }
    split; [|split].
    + rewrite (send_command_frame self bare p true w Hb).
      rewrite (send_command_frame self framed _ false w Hf).
      unfold hh. now rewrite (frame_wrapped p Hs He).
    + exact Htwice.
    + rewrite Htwice, (send_command_frame self bare p true w Hb).
      intros E. apply sent_frames_equal in E.
      apply (f_equal (@List.length byte)) in E.
      unfold spec_frame in E. cbv zeta in E.
      rewrite (normalize_bare p Hs He) in E.
      unfold hh, two_hex_digits in E.
      rewrite !length_app in E. cbn [List.length] in E. lia.
Qed.

Lemma send_command_ignores_delimiters_witness :
  send_command example_device (Bytes (list_byte_of_string "$PMTK285,4,100*")) true world0
  = send_command example_device (Text "PMTK285,4,100") true world0
  /\ send_command example_device (Text "$PMTK285,4,100*38") false world0
     = send_command example_device (Text "PMTK285,4,100") true world0
  /\ send_command example_device (Text "$PMTK285,4,100*38") true world0
     = (Returned tt,
        sent PA1010D_ADDR
             (list_byte_of_string ("$PMTK285,4,100*38*19" ++ CRLF)%string) world0)
  /\ send_command example_device (Text "$PMTK285,4,100*38") true world0
     <> send_command example_device (Text "PMTK285,4,100") true world0.
Proof.
  split.
  - apply (proj1 (send_command_ignores_delimiters example_device
                    (Text "PMTK285,4,100")
                    (Bytes (list_byte_of_string "$PMTK285,4,100*"))
                    (list_byte_of_string "PMTK285,4,100") true world0
                    eq_refl eq_refl eq_refl)).
    left. reflexivity.
  - exact (proj2 (send_command_ignores_delimiters example_device
                    (Text "PMTK285,4,100") (Text "$PMTK285,4,100*38")
                    (list_byte_of_string "PMTK285,4,100") true world0
                    eq_refl eq_refl eq_refl) eq_refl).
Defined.

(** ** PPS mode encoder: claim *)

(** C9. A [mode] that is not a member of [PPS] is rejected with a ValueError
    and the world, the bus included, is left as it was, whatever
    [pulse_width] is.  For every member of [PPS] and every integer
    [pulse_width], in or out of the documented range, [set_pps] sends the
    payload [PMTK285,<d>,<digits>] through [send_command] with the checksum
    enabled, which writes the complete frame: [d] is 0 for DISABLE, 1 for
    AFTER_FIRST_FIX, 2 for ONLY_3D, 3 for ONLY_2D_3D and 4 for ALWAYS, and
    [digits] is the decimal writing of [pulse_width], the one string without
    plus sign or leading zero that reads back as [pulse_width]; every integer
    has one.  A [pulse_width] that is not an integer goes into the payload as
    the text that formatting makes of it, unchecked as well. *)
Theorem set_pps_contract :
  (forall (self : PA1010D) (v : pyval) (pulse_width : pulse_arg) (w : world),
      set_pps self (NotPPS v) pulse_width w
      = (Raised (ValueError "Mode must be of type PPS"), w))
  /\ (forall (self : PA1010D) (m : PPS) (z : Z) (digits : string) (w : world),
         int_base10 digits = Some z ->
         canonical_decimal digits = true ->
         let payload :=
           ("PMTK285,"
              ++ match m with
                 | DISABLE => "0"
                 | AFTER_FIRST_FIX => "1"
                 | ONLY_3D => "2"
                 | ONLY_2D_3D => "3"
                 | ALWAYS => "4"
                 end
              ++ "," ++ digits)%string in
         let bytes := list_byte_of_string payload in
         set_pps self (IsPPS m) (PulseInt z) w
         = send_command self (Text payload) true w
         /\ set_pps self (IsPPS m) (PulseInt z) w
            = (Returned tt,
               sent (_i2c_addr self)
                    ([DOLLAR] ++ bytes ++ [STAR]
                     ++ two_hex_digits (spec_checksum bytes) ++ [CR; LF])
                    w))
  /\ (forall z : Z,
         exists digits : string,
           int_base10 digits = Some z /\ canonical_decimal digits = true)
  /\ (forall (self : PA1010D) (m : PPS) (text : string) (w : world),
         set_pps self (IsPPS m) (PulseOther text) w
         = send_command self
             (Text ("PMTK285,"
                      ++ match m with
                         | DISABLE => "0"
                         | AFTER_FIRST_FIX => "1"
                         | ONLY_3D => "2"
                         | ONLY_2D_3D => "3"
                         | ALWAYS => "4"
                         end
                      ++ "," ++ text)%string)
             true w).
Proof.
  split; [reflexivity|]. split; [|split].
  - intros self m z digits w Hread Hcanon payload bytes.
    assert (Hp : pps_sentence m (PulseInt z) = payload).
    { unfold pps_sentence, format_pulse, payload.
      rewrite mode_value_digit, (canonical_unique digits z Hread Hcanon).
      reflexivity. }
    unfold set_pps. cbv zeta.
    pose proof (pps_sentence_plain m z) as Hplain.
    rewrite Hp in Hplain |- *. split; [reflexivity|].
    rewrite (send_command_frame self (Text payload) bytes true w
               (encode_plain payload Hplain)).
    unfold spec_frame. cbv zeta. unfold bytes.
    rewrite (normalize_plain payload Hplain). reflexivity.
  - intros z. exists (str_int z). apply str_int_reads_back.
  - intros self m text w. unfold set_pps, pps_sentence, format_pulse. cbv zeta.
    rewrite mode_value_digit. reflexivity.
Qed.

Lemma set_pps_contract_witness :
  set_pps example_device (IsPPS ALWAYS) (PulseInt 100) world0
  = send_command example_device (Text "PMTK285,4,100") true world0
  /\ set_pps example_device (IsPPS ALWAYS) (PulseInt 100) world0
     = (Returned tt,
        sent PA1010D_ADDR
             (list_byte_of_string ("$PMTK285,4,100*38" ++ CRLF)%string) world0).
Proof.
  exact (proj1 (proj2 set_pps_contract) example_device ALWAYS 100%Z "100" world0
               eq_refl eq_refl).
Defined.

Example set_pps_out_of_range :
  set_pps example_device (IsPPS DISABLE) (PulseInt (-5)) world0
  = (Returned tt,
     sent PA1010D_ADDR (list_byte_of_string ("$PMTK285,0,-5*15" ++ CRLF)%string) world0).
Proof. reflexivity. Qed.

Example set_pps_text_pulse_width :
  set_pps example_device (IsPPS ONLY_3D) (PulseOther "1e3") world0
  = (Returned tt,
     sent PA1010D_ADDR (list_byte_of_string ("$PMTK285,2,1e3*68" ++ CRLF)%string) world0).
Proof. reflexivity. Qed.

(** ** Text helpers of the framed reader *)

Lemma decode_ascii_app (a b : list byte) (ta tb : string) :
  decode_ascii a = Some ta -> decode_ascii b = Some tb ->
  decode_ascii (a ++ b) = Some (ta ++ tb)%string.
Proof.
  revert ta. induction a as [|x a IH]; intros ta Ha Hb; simpl in *.
  - injection Ha as <-. exact Hb.
  - destruct (is_ascii (ascii_of_byte x)); [|discriminate].
    destruct (decode_ascii a) as [t|]; [|discriminate].
    injection Ha as <-. now rewrite (IH t eq_refl Hb).
Qed.

Lemma rstrip_space_end (s : string) (c : ascii) :
  is_space c = true -> rstrip (s ++ String c EmptyString) = rstrip s.
Proof.
  intros Hc. induction s as [|a s IH]; simpl.
  - now rewrite Hc.
  - now rewrite IH.
Qed.

Lemma string_app_assoc (a b c : string) :
  ((a ++ b) ++ c = a ++ (b ++ c))%string.
Proof. induction a as [|x a IH]; simpl; [reflexivity | now rewrite IH]. Qed.

Lemma strip_frame (text : string) :
  strip (String "$" (text ++ CRLF)) = rstrip (String "$" text).
Proof.
  unfold strip.
  change (lstrip (String "$" (text ++ CRLF))) with (String "$" (text ++ CRLF)).
  replace (String "$" (text ++ CRLF))
    with ((String "$" text ++ String "013" EmptyString)
            ++ String "010" EmptyString)%string
    by (rewrite string_app_assoc; reflexivity).
  now rewrite !rstrip_space_end.
Qed.

Lemma last_two_snoc (pre : list byte) (x b : byte) :
  last_two ((pre ++ [x]) ++ [b]) = [x; b].
Proof.
  unfold last_two. rewrite <- app_assoc. simpl.
  rewrite length_app. simpl.
  replace (List.length pre + 2 - 2)%nat with (List.length pre + 0)%nat by lia.
  rewrite skipn_app, Nat.add_0_r, skipn_all.
  replace (List.length pre - List.length pre)%nat with 0%nat by lia. reflexivity.
Qed.

Lemma has_crlf_suffix (pre l : list byte) :
  has_crlf (pre ++ l) = false -> has_crlf l = false.
Proof.
  induction pre as [|a pre IH]; [trivial|].
  simpl. destruct (pre ++ l) eqn:E.
  - intros _. destruct pre; [simpl in E; now subst | discriminate E].
  - intros H. apply orb_false_iff in H as [_ H]. exact (IH H).
Qed.

(** ** Framed reader: the loop *)

Section ReaderProofs.

Variable clock : nat -> float.
Variable rx : nat -> byte.

Lemma later_step (n m : nat) (w : world) :
  later n m (mkWorld (S (clock_pos w)) (S (rx_pos w)) (tx w) (stdout w))
  = later (S n) (S m) w.
Proof. unfold later; simpl. f_equal; lia. Qed.

Lemma stream_at_tail (k : nat) (b : byte) (l : list byte) :
  stream_at rx k (b :: l) -> rx k = b /\ stream_at rx (S k) l.
Proof.
  intros H. split.
  - specialize (H 0%nat). simpl in H. rewrite Nat.add_0_r in H. apply H. lia.
  - intros i Hi. specialize (H (S i)). simpl in H.
    rewrite Nat.add_succ_r in H. apply H. lia.
Qed.

Lemma in_time_tail (k n : nat) (deadline : float) :
  in_time clock k (S n) deadline ->
  ltb (clock k) deadline = true /\ in_time clock (S k) n deadline.
Proof.
  intros H. split.
  - specialize (H 0%nat). rewrite Nat.add_0_r in H. apply H. lia.
  - intros i Hi. specialize (H (S i)).
    rewrite Nat.add_succ_r in H. apply H. lia.
Qed.

Lemma read_sentence_loop_S (fuel : nat) (deadline : float) (buf : list byte)
      (w : world) :
  read_sentence_loop clock rx (S fuel) deadline buf w
  = if ltb (clock (clock_pos w)) deadline then
      let w2 := mkWorld (S (clock_pos w)) (S (rx_pos w)) (tx w) (stdout w) in
      if (List.length buf =? 0)%nat && negb (Byte.eqb (rx (rx_pos w)) DOLLAR)
      then read_sentence_loop clock rx fuel deadline buf w2
      else if bytes_eqb (last_two (buf ++ [rx (rx_pos w)])) [CR; LF] then
             match decode_ascii (buf ++ [rx (rx_pos w)]) with
             | Some text => (Returned (remove_newlines (strip text)), w2)
             | None => (Raised UnicodeDecodeError, w2)
             end
           else read_sentence_loop clock rx fuel deadline
                                   (buf ++ [rx (rx_pos w)]) w2
    else (Raised (TimeoutError "Timeout waiting for readline"),
          mkWorld (S (clock_pos w)) (rx_pos w) (tx w) (stdout w)).
Proof. reflexivity. Qed.

Lemma open_buffer (pre : list byte) (x : byte) :
  (List.length (pre ++ [x]) =? 0)%nat = false.
Proof. rewrite length_app. apply Nat.eqb_neq. simpl. lia. Qed.

(** Bytes before the first [$] are read and dropped. *)
Lemma read_loop_skips_garbage (garbage : list byte) :
  forall (fuel : nat) (deadline : float) (w : world),
    Forall (fun b => b <> DOLLAR) garbage ->
    stream_at rx (rx_pos w) garbage ->
    in_time clock (clock_pos w) (List.length garbage) deadline ->
    read_sentence_loop clock rx (List.length garbage + fuel) deadline [] w
    = read_sentence_loop clock rx fuel deadline []
        (later (List.length garbage) (List.length garbage) w).
Proof.
  induction garbage as [|g garbage IH]; intros fuel deadline w Hg Hs Ht.
  - simpl. unfold later. rewrite !Nat.add_0_r. now destruct w.
  - apply stream_at_tail in Hs as [Hrx Hs].
    change (List.length (g :: garbage)) with (S (List.length garbage)) in *.
    apply in_time_tail in Ht as [Hnow Ht].
    apply Forall_cons_iff in Hg as [Hne Hg'].
    change (S (List.length garbage) + fuel)%nat
      with (S (List.length garbage + fuel)).
    rewrite read_sentence_loop_S. cbv zeta.
    rewrite Hnow, Hrx, (byte_eqb_neq _ _ Hne).
    change ((List.length (@nil byte) =? 0)%nat && negb false) with true.
    cbv iota.
    rewrite IH; [| exact Hg' | exact Hs | exact Ht].
    now rewrite later_step.
Qed.

(** Once the buffer is open, bytes are kept up to the first CR LF. *)
Lemma read_loop_collects (rest : list byte) :
  forall (pre : list byte) (x : byte) (fuel : nat) (deadline : float)
         (w : world),
    has_crlf (pre ++ x :: rest) = false ->
    stream_at rx (rx_pos w) (rest ++ [CR; LF]) ->
    in_time clock (clock_pos w) (List.length rest + 2) deadline ->
    read_sentence_loop clock rx (List.length rest + 2 + fuel) deadline
                       (pre ++ [x]) w
    = (match decode_ascii (pre ++ x :: rest ++ [CR; LF]) with
       | Some text => Returned (remove_newlines (strip text))
       | None => Raised UnicodeDecodeError
       end,
       later (List.length rest + 2) (List.length rest + 2) w).
Proof.
  induction rest as [|b rest IH]; intros pre x fuel deadline w Hc Hs Ht.
  - change ([] ++ [CR; LF]) with [CR; LF] in Hs.
    change (List.length (@nil byte) + 2)%nat with 2%nat in *.
    apply stream_at_tail in Hs as [Hrx1 Hs]. apply stream_at_tail in Hs as [Hrx2 _].
    apply in_time_tail in Ht as [Hnow1 Ht]. apply in_time_tail in Ht as [Hnow2 _].
    change (2 + fuel)%nat with (S (S fuel)).
    rewrite read_sentence_loop_S. cbv zeta.
    rewrite Hnow1, Hrx1, open_buffer, last_two_snoc.
    replace (bytes_eqb [x; CR] [CR; LF]) with false
      by (simpl; now rewrite andb_false_r).
    cbv iota. change (false && negb (Byte.eqb CR DOLLAR)) with false. cbv iota.
    rewrite read_sentence_loop_S. cbv zeta.
    change (clock_pos (mkWorld (S (clock_pos w)) (S (rx_pos w)) (tx w) (stdout w)))
      with (S (clock_pos w)).
    change (rx_pos (mkWorld (S (clock_pos w)) (S (rx_pos w)) (tx w) (stdout w)))
      with (S (rx_pos w)).
    rewrite Hnow2, Hrx2, open_buffer, last_two_snoc.
    change (bytes_eqb [CR; LF] [CR; LF]) with true.
    change (false && negb (Byte.eqb LF DOLLAR)) with false. cbv iota.
    rewrite <- !app_assoc.
    change ([x] ++ [CR] ++ [LF]) with (x :: [] ++ [CR; LF]).
    destruct (decode_ascii (pre ++ x :: [] ++ [CR; LF]));
      (f_equal; unfold later; simpl; f_equal; lia).
  - change ((b :: rest) ++ [CR; LF]) with (b :: (rest ++ [CR; LF])) in Hs.
    change (List.length (b :: rest) + 2)%nat with (S (List.length rest + 2)) in *.
    apply stream_at_tail in Hs as [Hrx Hs].
    apply in_time_tail in Ht as [Hnow Ht].
    change (S (List.length rest + 2) + fuel)%nat
      with (S (List.length rest + 2 + fuel)).
    rewrite read_sentence_loop_S. cbv zeta.
    rewrite Hnow, Hrx, open_buffer, last_two_snoc.
    pose proof (has_crlf_suffix pre _ Hc) as Hxb.
    change (has_crlf (x :: b :: rest))
      with ((Byte.eqb x CR && Byte.eqb b LF) || has_crlf (b :: rest)) in Hxb.
    apply orb_false_iff in Hxb as [Hxb _].
    replace (bytes_eqb [x; b] [CR; LF]) with false
      by (simpl; now rewrite andb_true_r, Hxb).
    change (false && negb (Byte.eqb b DOLLAR)) with false. cbv iota.
    rewrite (IH (pre ++ [x]) b fuel deadline _);
      [| now rewrite <- app_assoc | exact Hs | exact Ht].
    rewrite later_step, <- !app_assoc.
    change ([x] ++ b :: rest ++ [CR; LF]) with (x :: (b :: rest) ++ [CR; LF]).
    reflexivity.
Qed.

(** With no [$] on the bus, the reader never returns a line. *)
Lemma read_loop_idle :
  (forall k, rx k <> DOLLAR) ->
  forall (fuel : nat) (deadline : float) (w : world) (line : string)
         (w' : world),
    read_sentence_loop clock rx fuel deadline [] w <> (Returned line, w').
Proof.
  intros Hidle fuel. induction fuel as [|fuel IH]; intros deadline w line w'.
  - discriminate.
  - rewrite read_sentence_loop_S. cbv zeta.
    destruct (ltb (clock (clock_pos w)) deadline); [|discriminate].
    rewrite (byte_eqb_neq _ _ (Hidle (rx_pos w))).
    change ((List.length (@nil byte) =? 0)%nat && negb false) with true.
    cbv iota. apply IH.
Qed.

End ReaderProofs.

(** ** Framed reader: claim *)

Lemma stream_at_app (rx : nat -> byte) (k : nat) (a b : list byte) :
  stream_at rx k (a ++ b) ->
  stream_at rx k a /\ stream_at rx (k + List.length a) b.
Proof.
  intros H. split; intros i Hi.
  - rewrite (H i) by (rewrite length_app; lia). now apply app_nth1.
  - rewrite <- Nat.add_assoc, (H (List.length a + i)%nat)
      by (rewrite length_app; lia).
    rewrite app_nth2 by lia. f_equal. lia.
Qed.

Lemma in_time_split (clock : nat -> float) (k n m : nat) (deadline : float) :
  in_time clock k (n + m) deadline ->
  in_time clock k n deadline /\ in_time clock (k + n) m deadline.
Proof.
  intros H. split; intros i Hi.
  - apply H. lia.
  - rewrite <- Nat.add_assoc. apply H. lia.
Qed.

Lemma has_crlf_after_dollar (body : list byte) :
  has_crlf body = false -> has_crlf ([] ++ DOLLAR :: body) = false.
Proof. intros H. destruct body; [reflexivity | exact H]. Qed.

Lemma read_sentence_frame (clock : nat -> float) (rx : nat -> byte)
      (garbage body : list byte) (text : string) (timeout : float)
      (fuel : nat) (w : world) :
  Forall (fun b => b <> DOLLAR) garbage ->
  has_crlf body = false ->
  decode_ascii body = Some text ->
  stream_at rx (rx_pos w) (garbage ++ [DOLLAR] ++ body ++ [CR; LF]) ->
  in_time clock (S (clock_pos w))
          (List.length (garbage ++ [DOLLAR] ++ body ++ [CR; LF]))
          (add timeout (clock (clock_pos w))) ->
  (List.length (garbage ++ [DOLLAR] ++ body ++ [CR; LF]) <= fuel)%nat ->
  read_sentence clock rx fuel timeout w
  = (Returned (remove_newlines (rstrip (String "$" text))),
     later (S (List.length (garbage ++ [DOLLAR] ++ body ++ [CR; LF])))
           (List.length (garbage ++ [DOLLAR] ++ body ++ [CR; LF])) w).
Proof.
  intros Hg Hc Hd Hs Ht Hf.
  assert (Hlen : List.length (garbage ++ [DOLLAR] ++ body ++ [CR; LF])
                 = (List.length garbage + S (List.length body + 2))%nat)
    by (rewrite !length_app; simpl; lia).
  rewrite Hlen in *.
  apply stream_at_app in Hs as [Hs1 Hs2].
  change ([DOLLAR] ++ body ++ [CR; LF]) with (DOLLAR :: (body ++ [CR; LF])) in Hs2.
  apply in_time_split in Ht as [Ht1 Ht2].
  unfold read_sentence, time_time.
  set (deadline := add timeout (clock (clock_pos w))) in *.
  set (w1 := mkWorld (S (clock_pos w)) (rx_pos w) (tx w) (stdout w)).
  replace fuel
    with (List.length garbage
          + S (List.length body + 2
               + (fuel - (List.length garbage + S (List.length body + 2)))))%nat
    by lia.
  rewrite (read_loop_skips_garbage clock rx garbage _ deadline w1 Hg Hs1 Ht1).
  set (w2 := later (List.length garbage) (List.length garbage) w1).
  apply (stream_at_tail rx) in Hs2 as [Hrx Hs2].
  apply (in_time_tail clock) in Ht2 as [Hnow Ht2].
  rewrite read_sentence_loop_S. cbv zeta.
  change (clock_pos w2) with (S (clock_pos w) + List.length garbage)%nat.
  change (rx_pos w2) with (rx_pos w + List.length garbage)%nat.
  rewrite Hnow, Hrx.
  change ((List.length (@nil byte) =? 0)%nat && negb (Byte.eqb DOLLAR DOLLAR))
    with false.
  change (bytes_eqb (last_two ([] ++ [DOLLAR])) [CR; LF]) with false.
  cbv iota.
  rewrite (read_loop_collects clock rx body [] DOLLAR _ deadline
             (mkWorld (S (clock_pos w2)) (S (rx_pos w2)) (tx w2) (stdout w2))
             (has_crlf_after_dollar body Hc) Hs2 Ht2).
  assert (Hdec : decode_ascii ([] ++ DOLLAR :: body ++ [CR; LF])
                 = Some (String "$" (text ++ CRLF))).
  { change ([] ++ DOLLAR :: body ++ [CR; LF]) with ([DOLLAR] ++ (body ++ [CR; LF])).
    apply (decode_ascii_app [DOLLAR] _ (String "$" EmptyString)); [reflexivity|].
    now apply decode_ascii_app. }
  rewrite Hdec, strip_frame. f_equal.
  unfold later; simpl. f_equal; lia.
Qed.

(** C4, as stated, fails: [strip()] removes every trailing white-space
    character, not only the terminating CR LF, so a blank that precedes the
    terminator is lost. *)
Lemma read_sentence_strips_trailing_blank :
  let rx := rx_of ("xx$A " ++ CRLF)%string in
  let clock := frozen_clock 1700000000 in
  decode_ascii (list_byte_of_string "$A ") = Some "$A "
  /\ remove_newlines "$A " = "$A "
  /\ read_sentence clock rx 20 5 world0 = (Returned "$A", later 8 7 world0)
  /\ fst (read_sentence clock rx 20 5 world0) <> Returned (remove_newlines "$A ").
Proof.
  cbv zeta. repeat split; try reflexivity.
  vm_compute. discriminate.
Qed.

(** A byte outside ASCII between [$] and CR LF makes the reader raise. *)
Example read_sentence_decode_error :
  read_sentence (frozen_clock 1700000000)
                (rx_of ("$A" ++ String "255" CRLF)%string) 20 5 world0
  = (Raised UnicodeDecodeError, later 6 5 world0).
Proof. reflexivity. Qed.

(** C4, amended. When the receiver answers garbage bytes without [$], then
    [$], then ASCII sentence bytes free of CR LF, then CR LF, all read before
    the deadline, [read_sentence] drops the garbage and returns the text from
    [$] up to the terminating CR LF with every trailing white-space character
    (the CR LF among them) and every newline character removed; it reads
    exactly the bytes of the frame. *)
Theorem read_sentence_resync :
  forall (clock : nat -> float) (rx : nat -> byte) (garbage body : list byte)
         (text : string) (timeout : float) (fuel : nat) (w : world),
    let frame := garbage ++ [DOLLAR] ++ body ++ [CR; LF] in
    Forall (fun b => b <> DOLLAR) garbage ->
    has_crlf body = false ->
    decode_ascii body = Some text ->
    stream_at rx (rx_pos w) frame ->
    in_time clock (S (clock_pos w)) (List.length frame)
            (add timeout (clock (clock_pos w))) ->
    (List.length frame <= fuel)%nat ->
    read_sentence clock rx fuel timeout w
    = (Returned (remove_newlines (rstrip (String "$" text))),
       later (S (List.length frame)) (List.length frame) w).
Proof.
  intros clock rx garbage body text timeout fuel w frame.
  apply read_sentence_frame.
Qed.

Lemma read_sentence_resync_witness :
  read_sentence (frozen_clock 1700000000)
                (rx_of ("xx$A" ++ String "010" "B " ++ CRLF)%string) 20 5 world0
  = (Returned "$AB", later 10 9 world0).
Proof.
  apply (read_sentence_resync (frozen_clock 1700000000)
           (rx_of ("xx$A" ++ String "010" "B " ++ CRLF)%string)
           (list_byte_of_string "xx") (list_byte_of_string (String "A" (String "010" "B ")))
           (String "A" (String "010" "B ")) 5 20 world0).
  - repeat constructor; discriminate.
  - reflexivity.
  - reflexivity.
  - intros i _. reflexivity.
  - intros i _. reflexivity.
  - simpl. lia.
Defined.

(** ** Sentence dispatcher: folding one sentence *)

(** C5, as stated, fails: a GGA sentence whose fix quality is the number zero
    takes the ordinary branch, which overwrites time and position and stores
    the satellite count as the parser gave it.  Only an absent quality takes
    the no-fix branch. *)
Lemma zero_quality_fix_overwrites_position :
  let result :=
    GGA (PyObj "datetime.time(12, 35, 19)") (Reads (PyFloat 0))
        (Reads (PyFloat 0)) PyNone (PyStr "00") (PyInt 0) in
  let self' :=
    snd (fst (update_dispatch false result "GGA" "" example_device world0)) in
  gps_qual self' = PyInt 0
  /\ num_sats self' = PyStr "00"
  /\ num_sats self' <> PyInt 0
  /\ timestamp self' <> timestamp example_device
  /\ latitude self' <> latitude example_device.
Proof. cbv zeta. simpl. repeat split; discriminate. Qed.

(** C5, amended. Folding a GGA sentence whose fix quality is absent ([None])
    sets [num_sats] and [gps_qual] to 0 and leaves every other field as it
    was; folding any GGA sentence leaves [pdop], [hdop] and [vdop] (and
    [speed_over_ground] and [mode_fix_type]) as they were. *)
Theorem no_fix_sentence_fold :
  forall (has_mtk : bool) (ts : pyval) (lat lon : reading) (alt ns : pyval)
         (wait_for line : string) (self : PA1010D) (w : world),
    update_dispatch has_mtk (GGA ts lat lon alt ns PyNone) wait_for line self w
    = (return_if (String.eqb wait_for "GGA"),
       mkPA1010D (timestamp self) (latitude self) (longitude self)
                 (altitude self) (PyInt 0) (PyInt 0) (speed_over_ground self)
                 (mode_fix_type self) (pdop self) (hdop self) (vdop self)
                 (_i2c_addr self) (_debug self),
       w)
    /\ forall q : pyval,
        let self' :=
          snd (fst (update_dispatch has_mtk (GGA ts lat lon alt ns q)
                                    wait_for line self w)) in
        pdop self' = pdop self /\ hdop self' = hdop self /\ vdop self' = vdop self
        /\ speed_over_ground self' = speed_over_ground self
        /\ mode_fix_type self' = mode_fix_type self.
Proof.
  intros. split; [reflexivity|].
  intros q. simpl.
  destruct (is_None q); [simpl; repeat split|].
  destruct lat as [lat|msg]; [|simpl; repeat split].
  destruct lon as [lon|msg]; simpl; repeat split.
Qed.

(** ** Sentence dispatcher: one pass of the loop *)

Lemma dispatch_folds (has_mtk : bool) (result : sentence)
      (wait_for line : string) (self : PA1010D) (w : world) :
  snd (fst (update_dispatch has_mtk result wait_for line self w))
  = fold_table result self.
Proof.
  destruct result as [ts lat lon alt ns q| |mft p h v|spd| | | | | |c]; simpl;
    try reflexivity.
  - destruct q, lat, lon; reflexivity.
  - unfold mtk_classes. destruct has_mtk; reflexivity.
  - unfold mtk_classes. destruct has_mtk; reflexivity.
  - unfold mtk_classes. destruct has_mtk; reflexivity.
Qed.

Lemma dispatch_awaited (has_mtk : bool) (result : sentence)
      (wait_for line : string) (self : PA1010D) (w : world) :
  can_satisfy result = true -> names wait_for result = true ->
  reads_ok result = true ->
  update_dispatch has_mtk result wait_for line self w
  = (Return true, fold_table result self, w).
Proof.
  unfold names.
  destruct result as [ts lat lon alt ns q| |mft p h v|spd| | | | | |c]; simpl;
    try discriminate; intros _ H R; try (rewrite H; reflexivity).
  destruct q, lat, lon; try discriminate R; simpl; rewrite H; reflexivity.
Qed.

Lemma dispatch_unrecognized (has_mtk : bool) (result : sentence)
      (wait_for line : string) (self : PA1010D) (w : world) :
  unrecognized has_mtk result = true ->
  update_dispatch has_mtk result wait_for line self w
  = (Raise (RuntimeError (unsupported_message result line)), self, w).
Proof.
  destruct result as [ts lat lon alt ns q| |mft p h v|spd| | | | | |c]; simpl;
    try discriminate; unfold mtk_classes; destruct has_mtk; simpl;
    try discriminate; reflexivity.
Qed.

(** [update_dispatch] ends the call with success exactly on the sentences
    that qualify, and never with [False]. *)
Lemma dispatch_return (has_mtk : bool) (result : sentence)
      (wait_for line : string) (self : PA1010D) (w : world) (b : bool)
      (self' : PA1010D) (w' : world) :
  update_dispatch has_mtk result wait_for line self w = (Return b, self', w') ->
  b = true /\ qualifies has_mtk wait_for result = true.
Proof.
  unfold qualifies, names.
  destruct result as [ts lat lon alt ns q| |mft p h v|spd| | | | | |c]; simpl;
    unfold return_if, mtk_classes;
    try (destruct (String.eqb wait_for _); intros [= <- <- <-]; now split);
    try (intros [= <- <- <-]; now split);
    try discriminate.
  - destruct (is_None q), lat, lon, (String.eqb wait_for "GGA");
      try discriminate; intros [= <- <- <-]; now split.
  - destruct has_mtk; simpl; try discriminate; intros [= <- <- <-]; now split.
  - destruct has_mtk; simpl; try discriminate; intros [= <- <- <-]; now split.
  - destruct has_mtk; simpl; try discriminate; intros [= <- <- <-]; now split.
Qed.

Section UpdateProofs.

Variable clock : nat -> float.
Variable rx : nat -> byte.
Variable parse : string -> parsed.
Variable has_mtk : bool.

Lemma update_loop_S (fuel : nat) (wait_for : string) (deadline : float)
      (self : PA1010D) (w : world) :
  update_loop clock rx parse has_mtk (S fuel) wait_for deadline self w
  = if ltb (clock (clock_pos w)) deadline then
      match read_sentence clock rx fuel 5 (tick w) with
      | (Raised (TimeoutError _), w2) =>
          update_loop clock rx parse has_mtk fuel wait_for deadline self w2
      | (Raised e, w2) => (Raised e, self, w2)
      | (OutOfFuel, w2) => (OutOfFuel, self, w2)
      | (Returned line, w2) =>
          match parse line with
          | ParseError =>
              update_loop clock rx parse has_mtk fuel wait_for deadline self
                (if _debug self then print ("Parse error: " ++ line)%string w2
                 else w2)
          | ParseCrash class msg => (Raised (OtherError class msg), self, w2)
          | Parsed result =>
              match update_dispatch has_mtk result wait_for line self w2 with
              | (Return b, self', w3) => (Returned b, self', w3)
              | (Continue, self', w3) =>
                  update_loop clock rx parse has_mtk fuel wait_for deadline
                              self' w3
              | (Raise e, self', w3) => (Raised e, self', w3)
              end
          end
      end
    else (Raised (TimeoutError (timeout_message wait_for)), self, tick w).
Proof. reflexivity. Qed.

(** One pass that reads and parses a sentence is decided by the dispatch. *)
Lemma update_loop_sentence (fuel : nat) (wait_for : string)
      (deadline : float) (self : PA1010D) (w w2 : world) (line : string)
      (result : sentence) :
  ltb (clock (clock_pos w)) deadline = true ->
  read_sentence clock rx fuel 5 (tick w) = (Returned line, w2) ->
  parse line = Parsed result ->
  update_loop clock rx parse has_mtk (S fuel) wait_for deadline self w
  = match update_dispatch has_mtk result wait_for line self w2 with
    | (Return b, self', w3) => (Returned b, self', w3)
    | (Continue, self', w3) =>
        update_loop clock rx parse has_mtk fuel wait_for deadline self' w3
    | (Raise e, self', w3) => (Raised e, self', w3)
    end.
Proof.
  intros Hnow Hread Hparse.
  rewrite update_loop_S, Hnow, Hread, Hparse. reflexivity.
Qed.

End UpdateProofs.

(** C6. Folding a GSA sentence sets [mode_fix_type], [pdop], [hdop] and
    [vdop] from the parsed record and leaves every other field, [latitude],
    [longitude] and [num_sats] among them, as it was: this is the state with
    which [update] returns when it waits for "GSA", and with which it goes on
    reading otherwise. *)
Theorem dop_sentence_fold :
  forall (clock : nat -> float) (rx : nat -> byte)
         (parse : string -> parsed) (has_mtk : bool) (fuel : nat)
         (wait_for : string) (deadline : float) (self : PA1010D)
         (w w2 : world) (line : string) (mft p h v : pyval),
    let self' :=
      mkPA1010D (timestamp self) (latitude self) (longitude self)
                (altitude self) (num_sats self) (gps_qual self)
                (speed_over_ground self) mft p h v
                (_i2c_addr self) (_debug self) in
    update_dispatch has_mtk (GSA mft p h v) wait_for line self w2
    = (return_if (String.eqb wait_for "GSA"), self', w2)
    /\ (ltb (clock (clock_pos w)) deadline = true ->
        read_sentence clock rx fuel 5 (tick w) = (Returned line, w2) ->
        parse line = Parsed (GSA mft p h v) ->
        update_loop clock rx parse has_mtk (S fuel) wait_for deadline self w
        = if String.eqb wait_for "GSA" then (Returned true, self', w2)
          else update_loop clock rx parse has_mtk fuel wait_for deadline
                           self' w2).
Proof.
  intros clock rx parse has_mtk fuel wait_for deadline self w w2 line
         mft p h v self'.
  split; [reflexivity|].
  intros Hnow Hread Hparse.
  rewrite (update_loop_sentence clock rx parse has_mtk fuel wait_for deadline
             self w w2 line (GSA mft p h v) Hnow Hread Hparse).
  change (update_dispatch has_mtk (GSA mft p h v) wait_for line self w2)
    with (return_if (String.eqb wait_for "GSA"), self', w2).
  now destruct (String.eqb wait_for "GSA").
Qed.

Lemma dop_sentence_fold_witness :
  update_loop (frozen_clock 1700000000) (rx_of (GSA_line ++ CRLF)%string)
              example_parse false 100 "GSA" (add 5 1700000000)
              example_device (mkWorld 1 0 [] [])
  = (Returned true,
     mkPA1010D PyNone PyNone PyNone PyNone PyNone PyNone PyNone
               (PyStr "3") (PyStr "2.5") (PyStr "1.3") (PyStr "2.1")
               PA1010D_ADDR false,
     mkWorld 52 49 [] []).
Proof.
  apply (proj2 (dop_sentence_fold
                  (frozen_clock 1700000000) (rx_of (GSA_line ++ CRLF)%string)
                  example_parse false 99 "GSA" (add 5 1700000000)
                  example_device (mkWorld 1 0 [] []) (mkWorld 52 49 [] [])
                  GSA_line (PyStr "3") (PyStr "2.5") (PyStr "1.3") (PyStr "2.1")));
    vm_compute; reflexivity.
Defined.

(** ** Sentence dispatcher: the loop *)

(** [update_dispatch] raises on two kinds of sentences only: RuntimeError
    on an unrecognized one, and the ValueError of a GGA sentence whose
    latitude or longitude cannot be read. *)
Lemma dispatch_raise (has_mtk : bool) (result : sentence)
      (wait_for line : string) (self : PA1010D) (w : world) (e : exn)
      (self' : PA1010D) (w' : world) :
  update_dispatch has_mtk result wait_for line self w = (Raise e, self', w') ->
  (unrecognized has_mtk result = true
   /\ e = RuntimeError (unsupported_message result line))
  \/ (reads_ok result = false /\ exists msg, e = ValueError msg).
Proof.
  destruct result as [ts lat lon alt ns q| |mft p h v|spd| | | | | |c]; simpl;
    unfold return_if, mtk_classes;
    try (destruct (String.eqb wait_for _); discriminate);
    try discriminate.
  - destruct q, lat as [lat|m1], lon as [lon|m2]; simpl;
      try (destruct (String.eqb wait_for "GGA"); discriminate);
      intros [= <- <- <-]; right; (split; [reflexivity | eexists; reflexivity]).
  - destruct has_mtk; simpl; try discriminate.
    intros [= <- <- <-]. left. now split.
  - destruct has_mtk; simpl; try discriminate.
    intros [= <- <- <-]. left. now split.
  - intros H. left. split; [reflexivity|].
    destruct has_mtk; simpl in H; now injection H as <- <- <-.
Qed.

Section LoopProofs.

Variable clock : nat -> float.
Variable rx : nat -> byte.
Variable parse : string -> parsed.
Variable has_mtk : bool.

Section NoQualifyingSentence.

Variable wait_for : string.

Hypothesis never_qualifies :
  forall (fuel : nat) (timeout : float) (w : world) (line : string)
         (w' : world) (result : sentence),
    read_sentence clock rx fuel timeout w = (Returned line, w') ->
    parse line = Parsed result ->
    qualifies has_mtk wait_for result = false.

Lemma update_loop_deadline (fuel : nat) :
  forall (deadline : float) (self : PA1010D) (w : world),
    match update_loop clock rx parse has_mtk fuel wait_for deadline self w with
    | (Returned _, _, _) => False
    | (Raised (TimeoutError _), _, w') =>
        exists k, clock_pos w' = S k /\ ltb (clock k) deadline = false
    | _ => True
    end.
Proof.
  induction fuel as [|fuel IH]; intros deadline self w; [exact I|].
  rewrite update_loop_S.
  destruct (ltb (clock (clock_pos w)) deadline) eqn:Hnow.
  - destruct (read_sentence clock rx fuel 5 (tick w)) as [[line|e|] w2] eqn:R.
    + destruct (parse line) as [result| |class msg] eqn:P; [|apply IH|exact I].
      destruct (update_dispatch has_mtk result wait_for line self w2)
        as [[[r| |e] self2] w3] eqn:D.
      * apply dispatch_return in D as [_ Q].
        rewrite (never_qualifies _ _ _ _ _ _ R P) in Q. discriminate Q.
      * apply IH.
      * apply dispatch_raise in D as [[_ ->]|[_ [msg ->]]]; exact I.
    + destruct e; try exact I. apply IH.
    + exact I.
  - exists (clock_pos w). split; [reflexivity | exact Hnow].
Qed.

End NoQualifyingSentence.

End LoopProofs.

(** ** Sentence dispatcher: claims *)

(** C7, as stated, fails for GLL: the GLL branch never returns, so a caller
    that waits for "GLL" gets a Timeout even though a GLL sentence was read
    and parsed. *)
Lemma awaited_GLL_sentence_times_out :
  let clock := step_clock 50 1700000000 1700000010 in
  let rx := rx_of (GLL_line ++ CRLF)%string in
  read_sentence clock rx 99 5 (mkWorld 2 0 [] [])
  = (Returned GLL_line, mkWorld 45 42 [] [])
  /\ example_parse GLL_line = Parsed GLL
  /\ kind_name GLL = Some "GLL"
  /\ update clock rx example_parse false 100 "GLL" 5 example_device world0
     = (Raised (TimeoutError "Timeout waiting for GLL message."),
        example_device, mkWorld 52 45 [] []).
Proof. cbv zeta. repeat split; vm_compute; reflexivity. Qed.

(** A GGA sentence with a fix whose latitude is not a coordinate: reading
    [result.latitude] raises ValueError after [timestamp] was assigned. *)
Example update_unreadable_latitude :
  update (frozen_clock 1700000000) (rx_of (bad_GGA_line ++ CRLF)%string)
         example_parse false 100 "GGA" 5 example_device world0
  = (Raised (ValueError
               "Geographic coordinate value '48x7.038' is not valid DDDMM.MMM"),
     set_timestamp (PyObj "datetime.time(12, 35, 19)") example_device,
     mkWorld 70 67 [] []).
Proof. vm_compute. reflexivity. Qed.

(** C7, amended. In a pass of the loop of [update] that reads and parses a
    sentence of kind GGA, GSA, RMC, VTG or GSV whose attributes can be read,
    if [wait_for] names that kind then [update] returns [True] at once, with
    the sentence folded into the fix state (for a GGA sentence without fix:
    the two zeroed fields) and no further clock or bus access.  A GLL
    sentence never ends the call, whatever [wait_for] is, "GLL" included: the
    loop goes on with the fix state as it was. *)
Theorem update_returns_on_awaited_kind :
  forall (clock : nat -> float) (rx : nat -> byte)
         (parse : string -> parsed) (has_mtk : bool) (fuel : nat)
         (wait_for : string) (deadline : float) (self : PA1010D)
         (w w2 : world) (line : string) (result : sentence),
    ltb (clock (clock_pos w)) deadline = true ->
    read_sentence clock rx fuel 5 (tick w) = (Returned line, w2) ->
    parse line = Parsed result ->
    (can_satisfy result = true ->
     names wait_for result = true ->
     reads_ok result = true ->
     update_loop clock rx parse has_mtk (S fuel) wait_for deadline self w
     = (Returned true, fold_table result self, w2))
    /\ (result = GLL ->
        update_loop clock rx parse has_mtk (S fuel) wait_for deadline self w
        = update_loop clock rx parse has_mtk fuel wait_for deadline self w2).
Proof.
  intros clock rx parse has_mtk fuel wait_for deadline self w w2 line result
         Hnow Hread Hparse.
  rewrite (update_loop_sentence clock rx parse has_mtk fuel wait_for deadline
             self w w2 line result Hnow Hread Hparse).
  split.
  - intros Hkind Hname Hok.
    now rewrite (dispatch_awaited has_mtk result wait_for line self w2
                   Hkind Hname Hok).
  - intros ->. reflexivity.
Qed.

Lemma update_returns_on_awaited_kind_witness :
  update_loop (frozen_clock 1700000000) (rx_of (GGA_line ++ CRLF)%string)
              example_parse false 100 "GGA" (add 5 1700000000)
              example_device (mkWorld 1 0 [] [])
  = (Returned true,
     mkPA1010D (PyObj "datetime.time(12, 35, 19)") (PyFloat 0x1.80f03afb7e910p+5)
               (PyFloat 0x1.7088888888889p+3) (PyFloat 0x1.10b3333333333p+9)
               (PyStr "08") (PyInt 1) PyNone PyNone PyNone PyNone PyNone
               PA1010D_ADDR false,
     mkWorld 70 67 [] [])
  /\ update_loop (frozen_clock 1700000000) (rx_of (GLL_line ++ CRLF)%string)
                 example_parse false 100 "GLL" (add 5 1700000000)
                 example_device (mkWorld 1 0 [] [])
     = update_loop (frozen_clock 1700000000) (rx_of (GLL_line ++ CRLF)%string)
                   example_parse false 99 "GLL" (add 5 1700000000)
                   example_device (mkWorld 45 42 [] []).
Proof.
  split.
  - apply (proj1 (update_returns_on_awaited_kind
             (frozen_clock 1700000000) (rx_of (GGA_line ++ CRLF)%string)
             example_parse false 99 "GGA" (add 5 1700000000) example_device
             (mkWorld 1 0 [] []) (mkWorld 70 67 [] []) GGA_line
             (GGA (PyObj "datetime.time(12, 35, 19)")
                  (Reads (PyFloat 0x1.80f03afb7e910p+5))
                  (Reads (PyFloat 0x1.7088888888889p+3))
                  (PyFloat 0x1.10b3333333333p+9) (PyStr "08") (PyInt 1))
             eq_refl eq_refl eq_refl));
      reflexivity.
  - apply (proj2 (update_returns_on_awaited_kind
             (frozen_clock 1700000000) (rx_of (GLL_line ++ CRLF)%string)
             example_parse false 99 "GLL" (add 5 1700000000) example_device
             (mkWorld 1 0 [] []) (mkWorld 45 42 [] []) GLL_line GLL
             eq_refl eq_refl eq_refl)).
    reflexivity.
Defined.

(** A GGA sentence without fix still ends the wait for "GGA". *)
Example update_returns_without_fix :
  forall self w,
    update_dispatch false
      (GGA PyNone (Reads (PyFloat 0)) (Reads (PyFloat 0)) PyNone PyNone PyNone)
      "GGA" "$GPGGA,,,,,,,,,,,,,,*56" self w
    = (Return true,
       mkPA1010D (timestamp self) (latitude self) (longitude self)
                 (altitude self) (PyInt 0) (PyInt 0) (speed_over_ground self)
                 (mode_fix_type self) (pdop self) (hdop self) (vdop self)
                 (_i2c_addr self) (_debug self),
       w).
Proof. reflexivity. Qed.

(** C8. In a pass of the loop of [update] that reads and parses a sentence
    known to neither the primary dispatch nor the MTK fallback, [update]
    fails at once with a RuntimeError whose message names the sentence type
    and the raw line; the fix state is unchanged and nothing more is read.
    This holds whether or not the parser has the MTK classes: when they are
    absent the failed lookup is absorbed and the same error is raised. *)
Theorem update_fails_on_unrecognized :
  forall (clock : nat -> float) (rx : nat -> byte)
         (parse : string -> parsed) (has_mtk : bool) (fuel : nat)
         (wait_for : string) (deadline : float) (self : PA1010D)
         (w w2 : world) (line : string) (result : sentence),
    ltb (clock (clock_pos w)) deadline = true ->
    read_sentence clock rx fuel 5 (tick w) = (Returned line, w2) ->
    parse line = Parsed result ->
    unrecognized has_mtk result = true ->
    update_loop clock rx parse has_mtk (S fuel) wait_for deadline self w
    = (Raised (RuntimeError ("Unsupported message type " ++ type_repr result
                             ++ " (" ++ line ++ ")")%string),
       self, w2).
Proof.
  intros clock rx parse has_mtk fuel wait_for deadline self w w2 line result
         Hnow Hread Hparse Hun.
  rewrite (update_loop_sentence clock rx parse has_mtk fuel wait_for deadline
             self w w2 line result Hnow Hread Hparse).
  now rewrite (dispatch_unrecognized has_mtk result wait_for line self w2 Hun).
Qed.

Lemma update_fails_on_unrecognized_witness :
  update_loop (frozen_clock 1700000000) (rx_of (ZDA_line ++ CRLF)%string)
              example_parse false 100 "GGA" (add 5 1700000000)
              example_device (mkWorld 1 0 [] [])
  = (Raised (RuntimeError
               "Unsupported message type <class 'pynmea2.types.talker.ZDA'> ($GPZDA,201530.00,04,07,2002,00,00*60)"),
     example_device, mkWorld 41 38 [] []).
Proof.
  apply (update_fails_on_unrecognized
           (frozen_clock 1700000000) (rx_of (ZDA_line ++ CRLF)%string)
           example_parse false 99 "GGA" (add 5 1700000000) example_device
           (mkWorld 1 0 [] []) (mkWorld 41 38 [] []) ZDA_line
           (OtherSentence "<class 'pynmea2.types.talker.ZDA'>"));
    vm_compute; reflexivity.
Defined.

(** C2, as stated, fails: the deadline is the binary64 sum of the timeout and
    the first clock reading, and that sum is rounded.  With a timeout of 0.1
    seconds starting at 1700000000.0 the deadline falls 95 nanoseconds short
    of a tenth of a second; a clock reading that lands on it ends the call
    with a Timeout after less than the timeout has elapsed. *)
Lemma rounded_deadline_expires_early :
  let t := 0x1.999999999999ap-4%float in
  let start := 1700000000%float in
  let clock := step_clock 1 start 0x1.954fc40066666p+30 in
  ltb 0 t = true
  /\ add t start = 0x1.954fc40066666p+30%float
  /\ update clock (rx_of "") example_parse false 100 "GGA" t example_device world0
     = (Raised (TimeoutError "Timeout waiting for GGA message."),
        example_device, mkWorld 2 0 [] [])
  /\ sub (clock 1%nat) (clock 0%nat) = 0x1.99998p-4%float
  /\ ltb (sub (clock 1%nat) (clock 0%nat)) t = true
  /\ leb t (sub (clock 1%nat) (clock 0%nat)) = false.
Proof. cbv zeta. repeat split; vm_compute; reflexivity. Qed.

(** A timeout below half the spacing of the clock values is absorbed
    entirely: the call times out on a clock that has not moved. *)
Example tiny_timeout_expires_at_once :
  let t := 0x1p-24%float in
  let clock := frozen_clock 1700000000 in
  ltb 0 t = true
  /\ add t (clock 0%nat) = clock 0%nat
  /\ update clock (rx_of "") example_parse false 100 "GGA" t example_device world0
     = (Raised (TimeoutError "Timeout waiting for GGA message."),
        example_device, mkWorld 2 0 [] []).
Proof. cbv zeta. repeat split; vm_compute; reflexivity. Qed.

(** C2, amended. When no line read from the receiver parses to a sentence
    that qualifies for [wait_for], [update] never returns success, whatever
    the timeout; and when it raises its Timeout, the clock reading that ended
    the loop is not below the deadline, which is the floating-point sum of the
    timeout and the clock reading taken when the call began. *)
Theorem update_deadline :
  forall (clock : nat -> float) (rx : nat -> byte)
         (parse : string -> parsed) (has_mtk : bool)
         (wait_for : string),
    (forall (fuel : nat) (timeout : float) (w : world) (line : string)
            (w' : world) (result : sentence),
        read_sentence clock rx fuel timeout w = (Returned line, w') ->
        parse line = Parsed result ->
        qualifies has_mtk wait_for result = false) ->
    forall (fuel : nat) (t : float) (self : PA1010D) (w : world),
      match update clock rx parse has_mtk fuel wait_for t self w with
      | (Returned _, _, _) => False
      | (Raised (TimeoutError _), _, w') =>
          exists k, clock_pos w' = S k
                    /\ ltb (clock k) (add t (clock (clock_pos w))) = false
      | _ => True
      end.
Proof.
  intros clock rx parse has_mtk wait_for Hnever fuel t self w.
  unfold update, time_time.
  apply (update_loop_deadline clock rx parse has_mtk wait_for Hnever).
Qed.

Lemma idle_bus_never_dollar : forall k, rx_of "" k <> DOLLAR.
Proof. intros k. unfold rx_of. simpl. destruct k; discriminate. Qed.

Lemma update_deadline_witness :
  match update (step_clock 4 1700000000 1700000010) (rx_of "") example_parse
               false 100 "GGA" 5 example_device world0 with
  | (Returned _, _, _) => False
  | (Raised (TimeoutError _), _, w') =>
      exists k, clock_pos w' = S k
                /\ ltb (step_clock 4 1700000000 1700000010 k)
                       (add 5 (step_clock 4 1700000000 1700000010 0)) = false
  | _ => True
  end.
Proof.
  apply (update_deadline (step_clock 4 1700000000 1700000010) (rx_of "")
           example_parse false "GGA").
  intros fuel timeout w line w' result Hread _. exfalso.
  unfold read_sentence, time_time in Hread.
  exact (read_loop_idle _ _ idle_bus_never_dollar _ _ _ _ _ Hread).
Defined.

Example update_times_out_on_idle_bus :
  update (step_clock 4 1700000000 1700000010) (rx_of "") example_parse
         false 100 "GGA" 5 example_device world0
  = (Raised (TimeoutError "Timeout waiting for GGA message."),
     example_device, mkWorld 6 1 [] []).
Proof. vm_compute. reflexivity. Qed.

(** * Further properties of the driver *)

(** ** Bus writes *)

(** X1. [_write_sentence] performs one bus write per byte, in order, all to
    the address of the object; writing a concatenation is writing the parts
    one after the other, and the clock, the receive position and the printed
    lines are not touched. *)
Theorem write_sentence_in_order :
  forall (self : PA1010D) (a b : list byte) (w : world),
    _write_sentence self (a ++ b) w
    = _write_sentence self b (_write_sentence self a w)
    /\ tx (_write_sentence self a w) = tx w ++ map (pair (_i2c_addr self)) a
    /\ List.length (tx (_write_sentence self a w))
       = (List.length (tx w) + List.length a)%nat
    /\ clock_pos (_write_sentence self a w) = clock_pos w
    /\ rx_pos (_write_sentence self a w) = rx_pos w
    /\ stdout (_write_sentence self a w) = stdout w.
Proof.
  intros self a b w. rewrite !write_sentence_sent. unfold sent; simpl.
  repeat split.
  - now rewrite map_app, app_assoc.
  - now rewrite length_app, length_map.
Qed.

Lemma normalize_shorter (p : list byte) :
  (List.length (spec_normalize p) <= List.length p)%nat.
Proof.
  unfold spec_normalize.
  assert (Hd : (List.length (drop_leading_dollar p) <= List.length p)%nat).
  { destruct p as [|b p]; simpl; [lia|]. destruct (Byte.eqb b DOLLAR); simpl; lia. }
  assert (Ht : forall q, (List.length (drop_trailing_star q) <= List.length q)%nat).
  { induction q as [|b q IH]; [simpl; lia|].
    destruct q as [|c q].
    - simpl. destruct (Byte.eqb b STAR); simpl; lia.
    - change (drop_trailing_star (b :: c :: q))
        with (b :: drop_trailing_star (c :: q)).
      simpl List.length in *. lia. }
  specialize (Ht (drop_leading_dollar p)). lia.
Qed.

(** X2. Whatever the command and the flag, [send_command] reads neither the
    clock nor the bus and prints nothing; what was written before stays in
    front of the write log.  A command that stands for [payload] adds between
    3 and [len(payload) + 3] writes without the checksum and exactly 3 more
    with it; a command that cannot be encoded adds none. *)
Theorem send_command_effects :
  forall (self : PA1010D) (cmd : command) (flag : bool) (w : world),
    let w' := snd (send_command self cmd flag w) in
    clock_pos w' = clock_pos w
    /\ rx_pos w' = rx_pos w
    /\ stdout w' = stdout w
    /\ (exists written, tx w' = tx w ++ map (pair (_i2c_addr self)) written)
    /\ match command_bytes cmd with
       | Some payload =>
           let extra := (List.length (tx w') - List.length (tx w))%nat in
           let base := List.length (spec_normalize payload) in
           extra = (base + if flag then 6 else 3)%nat
           /\ (extra <= List.length payload + if flag then 6 else 3)%nat
       | None => w' = w
       end.
Proof.
  intros self cmd flag w.
  destruct (command_bytes cmd) as [payload|] eqn:Hc.
  - cbv zeta. rewrite (send_command_frame self cmd payload flag w Hc).
    unfold sent; cbn [snd clock_pos rx_pos tx stdout]. repeat split.
    + eexists; reflexivity.
    + rewrite length_app, length_map. unfold spec_frame. cbv zeta.
      rewrite !length_app. destruct flag; simpl; lia.
    + rewrite length_app, length_map. unfold spec_frame. cbv zeta.
      rewrite !length_app. pose proof (normalize_shorter payload).
      destruct flag; simpl; lia.
  - destruct cmd as [s|b]; simpl in Hc; [|discriminate Hc].
    cbv zeta. simpl. rewrite Hc. simpl. repeat split.
    exists []. simpl. now rewrite app_nil_r.
Qed.

(** ** Checksum *)

Lemma spec_checksum_app (a b : list byte) :
  spec_checksum (a ++ b) = N.lxor (spec_checksum a) (spec_checksum b).
Proof.
  induction a as [|x a IH]; simpl.
  - reflexivity.
  - now rewrite IH, N.lxor_assoc.
Qed.

Lemma spec_checksum_perm (a b : list byte) :
  Permutation a b -> spec_checksum a = spec_checksum b.
Proof.
  induction 1 as [|x a b _ IH|x y a|a b c _ IH1 _ IH2]; simpl.
  - reflexivity.
  - now rewrite IH.
  - rewrite <- !N.lxor_assoc. f_equal. apply N.lxor_comm.
  - now rewrite IH1.
Qed.

(** X3. The checksum loop of [send_command] always ends below 256; the
    checksum of a concatenation is the XOR of the checksums of the parts, a
    command followed by its own checksum byte sums to zero, and reordering
    the bytes of a command does not change its checksum. *)
Theorem xor_loop_algebra :
  forall (a b : list byte),
    (xor_loop a < 256)%N
    /\ xor_loop (a ++ b) = N.lxor (xor_loop a) (xor_loop b)
    /\ (forall c : byte, Byte.to_N c = xor_loop a -> xor_loop (a ++ [c]) = 0%N)
    /\ (Permutation a b -> xor_loop a = xor_loop b).
Proof.
  intros a b. rewrite !xor_loop_spec. repeat split.
  - apply spec_checksum_range.
  - apply spec_checksum_app.
  - intros c Hc. rewrite xor_loop_spec, spec_checksum_app. simpl.
    rewrite N.lxor_0_r, Hc. apply N.lxor_nilpotent.
  - apply spec_checksum_perm.
Qed.

Lemma xor_loop_algebra_witness :
  xor_loop (list_byte_of_string "PMTK285,4,100")
  = xor_loop (list_byte_of_string "PMTK285,1,400")
  /\ xor_loop (list_byte_of_string "PMTK285,4,100" ++ ["8"%byte]) = 0%N.
Proof.
  split.
  - apply (proj2 (proj2 (proj2 (xor_loop_algebra
             (list_byte_of_string "PMTK285,4,100")
             (list_byte_of_string "PMTK285,1,400"))))).
    change (list_byte_of_string "PMTK285,4,100")
      with (list_byte_of_string "PMTK285," ++ ["4"%byte] ++ [","%byte; "1"%byte]
            ++ list_byte_of_string "00").
    change (list_byte_of_string "PMTK285,1,400")
      with (list_byte_of_string "PMTK285," ++ ["1"%byte] ++ [","%byte; "4"%byte]
            ++ list_byte_of_string "00").
    apply Permutation_app_head.
    change (["4"%byte] ++ [","%byte; "1"%byte] ++ list_byte_of_string "00")
      with (["4"%byte; ","%byte; "1"%byte] ++ list_byte_of_string "00").
    change (["1"%byte] ++ [","%byte; "4"%byte] ++ list_byte_of_string "00")
      with (["1"%byte; ","%byte; "4"%byte] ++ list_byte_of_string "00").
    apply Permutation_app_tail.
    apply (perm_trans (l' := [","%byte; "4"%byte; "1"%byte])).
    + apply perm_swap.
    + apply (perm_trans (l' := [","%byte; "1"%byte; "4"%byte])).
      * apply perm_skip. apply perm_swap.
      * apply perm_swap.
  - apply (proj1 (proj2 (proj2 (xor_loop_algebra
             (list_byte_of_string "PMTK285,4,100") [])))).
    reflexivity.
Defined.

Lemma hex_round_trip_table : forallb hex_round_trip (seq 0 256) = true.
Proof. vm_compute. reflexivity. Qed.

(** X4. The checksum that [send_command] formats is always rendered as
    exactly two characters, and reading them back as a base-16 number gives
    the checksum again; so two commands get the same digits only if their
    checksums are equal. *)
Theorem checksum_digits_round_trip :
  forall (p q : list byte),
    String.length (format_02X (xor_loop p)) = 2%nat
    /\ int_base16 (format_02X (xor_loop p)) 0%N = Some (xor_loop p)
    /\ (format_02X (xor_loop p) = format_02X (xor_loop q) ->
        xor_loop p = xor_loop q).
Proof.
  assert (H : forall p, String.length (format_02X (xor_loop p)) = 2%nat
                        /\ int_base16 (format_02X (xor_loop p)) 0%N
                           = Some (xor_loop p)).
  { intros p. pose proof hex_round_trip_table as T.
    rewrite forallb_forall in T.
    assert (Hr : (xor_loop p < 256)%N)
      by (rewrite xor_loop_spec; apply spec_checksum_range).
    generalize dependent (xor_loop p). intros c Hr.
    specialize (T (N.to_nat c)).
    assert (Hin : In (N.to_nat c) (seq 0 256)) by (apply in_seq; lia).
    apply T in Hin. unfold hex_round_trip in Hin. rewrite N2Nat.id in Hin.
    destruct (int_base16 (format_02X c) 0%N) as [m|]; [|discriminate].
    apply andb_true_iff in Hin as [Hm Hl].
    apply N.eqb_eq in Hm. apply Nat.eqb_eq in Hl. now subst. }
  intros p q. destruct (H p) as [Hl Hp]. destruct (H q) as [_ Hq].
  repeat split; [exact Hl | exact Hp |].
  intros E. rewrite E in Hp. rewrite Hp in Hq. now injection Hq.
Qed.

Lemma checksum_digits_round_trip_witness :
  xor_loop (list_byte_of_string "PMTK285,4,100")
  = xor_loop (list_byte_of_string "8").
Proof.
  apply (proj2 (proj2 (checksum_digits_round_trip
                         (list_byte_of_string "PMTK285,4,100")
                         (list_byte_of_string "8")))).
  reflexivity.
Defined.

(** ** PPS commands are told apart *)

Lemma str_int_inj (a b : Z) : str_int a = str_int b -> a = b.
Proof.
  unfold str_int. intros H. apply DecimalZ.to_int_inj.
  assert (E : forall z, NilZero.string_of_int (Z.to_int z)
                        = NilEmpty.string_of_int (Z.to_int z)).
  { intros z. destruct z as [|p|p]; simpl; try reflexivity;
      unfold NilZero.string_of_uint;
      pose proof (DecimalPos.Unsigned.to_uint_nonnil p) as Hn;
      destruct (Pos.to_uint p); try reflexivity; now contradiction Hn. }
  rewrite !E in H.
  apply (f_equal NilEmpty.int_of_string) in H.
  rewrite !NilEmpty.isi in H. now injection H.
Qed.

Lemma list_byte_of_string_inj (a b : string) :
  list_byte_of_string a = list_byte_of_string b -> a = b.
Proof.
  intros H. apply (f_equal string_of_list_byte) in H.
  now rewrite !string_of_list_byte_of_string in H.
Qed.

Lemma pps_sentence_inj (m1 m2 : PPS) (p1 p2 : Z) :
  pps_sentence m1 (PulseInt p1) = pps_sentence m2 (PulseInt p2) ->
  m1 = m2 /\ p1 = p2.
Proof.
  unfold pps_sentence, format_pulse. intros H.
  destruct m1, m2; simpl in H; try discriminate H;
    (injection H as H; split; [reflexivity | now apply str_int_inj]).
Qed.

(** X5. Two [set_pps] calls that leave the same bytes on the bus were given
    the same mode and the same pulse width: the frame determines both
    arguments. *)
Theorem set_pps_frame_determines_arguments :
  forall (self : PA1010D) (m1 m2 : PPS) (p1 p2 : Z) (w : world),
    set_pps self (IsPPS m1) (PulseInt p1) w
    = set_pps self (IsPPS m2) (PulseInt p2) w ->
    m1 = m2 /\ p1 = p2.
Proof.
  intros self m1 m2 p1 p2 w H. unfold set_pps in H. cbv zeta in H.
  rewrite (send_command_frame self (Text (pps_sentence m1 (PulseInt p1))) _ true w
             (encode_plain _ (pps_sentence_plain m1 p1))) in H.
  rewrite (send_command_frame self (Text (pps_sentence m2 (PulseInt p2))) _ true w
             (encode_plain _ (pps_sentence_plain m2 p2))) in H.
  apply sent_frames_equal in H.
  unfold spec_frame in H. cbv zeta in H.
  rewrite !(normalize_plain _ (pps_sentence_plain _ _)) in H.
  apply app_inv_head in H.
  apply app_same_tail_length in H; [|reflexivity].
  now apply pps_sentence_inj, list_byte_of_string_inj.
Qed.

Lemma set_pps_frame_determines_arguments_witness :
  ALWAYS = ALWAYS /\ 100%Z = (50 + 50)%Z.
Proof.
  apply (set_pps_frame_determines_arguments example_device ALWAYS ALWAYS
           100 (50 + 50) world0).
  reflexivity.
Defined.

(** ** Attribute snapshot *)

Lemma dict_get_set (k k' : string) (v : attr) (d : list (string * attr)) :
  dict_get k (dict_set k' v d)
  = if String.eqb k k' then Some v else dict_get k d.
Proof.
  induction d as [|[k0 v0] d IH]; simpl.
  - reflexivity.
  - destruct (String.eqb k' k0) eqn:E; simpl.
    + apply String.eqb_eq in E. subst k0.
      destruct (String.eqb k k'); reflexivity.
    + rewrite IH. destruct (String.eqb k k0) eqn:E0; [|reflexivity].
      apply String.eqb_eq in E0. subst k0.
      destruct (String.eqb k k') eqn:E1; [|reflexivity].
      apply String.eqb_eq in E1. subst k'. rewrite String.eqb_refl in E.
      discriminate E.
Qed.

Lemma dict_of_slots_get (self : PA1010D) (slots : list string) :
  forall (d d' : list (string * attr)) (k : string),
    dict_of_slots self slots d = Some d' ->
    dict_get k d' = if existsb (String.eqb k) slots then getattr self k
                    else dict_get k d.
Proof.
  induction slots as [|slot slots IH]; intros d d' k H; simpl in H |- *.
  - now injection H as <-.
  - destruct (getattr self slot) as [v|] eqn:G; [|discriminate H].
    rewrite (IH _ _ k H), dict_get_set.
    destruct (String.eqb k slot) eqn:E; simpl.
    + apply String.eqb_eq in E. subst slot. rewrite G.
      now destruct (existsb (String.eqb k) slots).
    + reflexivity.
Qed.

(** X6. The [data] property never fails: it returns a dictionary with one
    entry per slot, the private ones included, in the order of [__slots__],
    and looking a name up in it gives what [getattr] gives on the object (no
    entry for a name that is not a slot). *)
Theorem data_is_a_snapshot :
  forall (self : PA1010D),
    exists d,
      data self = Some d
      /\ map fst d = __slots__
      /\ forall k : string, dict_get k d = getattr self k.
Proof.
  intros self. unfold data.
  destruct (dict_of_slots self __slots__ []) as [d|] eqn:D;
    [|discriminate D].
  exists d. split; [reflexivity|]. split.
  - injection D as <-. reflexivity.
  - intros k. rewrite (dict_of_slots_get self __slots__ [] d k D).
    unfold __slots__, getattr. simpl.
    repeat match goal with
           | |- context [String.eqb k ?s] => destruct (String.eqb k s); simpl
           end; reflexivity.
Qed.

(** ** Framed reader: what a returned line is made of *)

Lemma received_S (rx : nat -> byte) (k n : nat) :
  received rx k (S n) = rx k :: received rx (S k) n.
Proof. reflexivity. Qed.

Lemma received_snoc (rx : nat -> byte) (buf : list byte) (k n : nat) :
  (buf ++ [rx k]) ++ received rx (S k) n = buf ++ received rx k (S n).
Proof. rewrite received_S, <- app_assoc. reflexivity. Qed.

Section ReaderSoundness.

Variable clock : nat -> float.
Variable rx : nat -> byte.

Lemma read_loop_open_sound (fuel : nat) :
  forall (deadline : float) (buf : list byte) (w : world) (line : string)
         (w' : world),
    buf <> [] ->
    read_sentence_loop clock rx fuel deadline buf w = (Returned line, w') ->
    exists n, (0 < n)%nat
              /\ w' = later n n w
              /\ in_time clock (clock_pos w) n deadline
              /\ line_of rx buf (rx_pos w) n line.
Proof.
  induction fuel as [|fuel IH]; intros deadline buf w line w' Hb H;
    [discriminate H|].
  rewrite read_sentence_loop_S in H. cbv zeta in H.
  destruct (ltb (clock (clock_pos w)) deadline) eqn:Hnow; [|discriminate H].
  replace ((List.length buf =? 0)%nat) with false in H
    by (symmetry; apply Nat.eqb_neq; destruct buf; [contradiction | discriminate]).
  cbn [andb] in H.
  destruct (bytes_eqb (last_two (buf ++ [rx (rx_pos w)])) [CR; LF]) eqn:E.
  - destruct (decode_ascii (buf ++ [rx (rx_pos w)])) as [text|] eqn:D;
      [|discriminate H].
    injection H as <- <-. exists 1%nat. split; [lia|]. split.
    { unfold later. f_equal; lia. }
    split.
    { intros i Hi. replace i with 0%nat by lia. now rewrite Nat.add_0_r. }
    split; [exact E|]. split; [intros m Hm; lia|].
    exists text. split; [exact D | reflexivity].
  - apply IH in H; [|destruct buf; discriminate].
    destruct H as (n & Hn & Hw & Ht & Hl & Hm & text & Hd & Hline).
    cbn [rx_pos clock_pos] in *.
    exists (S n). split; [lia|]. split.
    { rewrite Hw. apply later_step. }
    split.
    { intros i Hi. destruct i as [|i].
      - now rewrite Nat.add_0_r.
      - rewrite Nat.add_succ_r. apply Ht. lia. }
    rewrite received_snoc in Hl, Hd.
    split; [exact Hl|]. split.
    + intros m Hmn. destruct m as [|[|m]]; [lia | exact E |].
      rewrite <- received_snoc. apply Hm. lia.
    + exists text. split; [exact Hd | exact Hline].
Qed.

Lemma read_loop_closed_sound (fuel : nat) :
  forall (deadline : float) (w : world) (line : string) (w' : world),
    read_sentence_loop clock rx fuel deadline [] w = (Returned line, w') ->
    exists g n, (1 < n)%nat
                /\ w' = later (g + n) (g + n) w
                /\ in_time clock (clock_pos w) (g + n) deadline
                /\ (forall i, (i < g)%nat -> rx (rx_pos w + i)%nat <> DOLLAR)
                /\ rx (rx_pos w + g)%nat = DOLLAR
                /\ line_of rx [] (rx_pos w + g) n line.
Proof.
  induction fuel as [|fuel IH]; intros deadline w line w' H; [discriminate H|].
  rewrite read_sentence_loop_S in H. cbv zeta in H.
  destruct (ltb (clock (clock_pos w)) deadline) eqn:Hnow; [|discriminate H].
  change ((List.length (@nil byte) =? 0)%nat) with true in H. cbn [andb] in H.
  destruct (Byte.eqb (rx (rx_pos w)) DOLLAR) eqn:E; cbn [negb] in H.
  - apply Byte.byte_dec_bl in E.
    change ([] ++ [rx (rx_pos w)]) with [rx (rx_pos w)] in H.
    rewrite E in H.
    change (bytes_eqb (last_two [DOLLAR]) [CR; LF]) with false in H.
    cbv iota in H.
    apply (read_loop_open_sound fuel deadline [DOLLAR]) in H; [|discriminate].
    destruct H as (n & Hn & Hw & Ht & Hl & Hm & text & Hd & Hline).
    cbn [rx_pos clock_pos] in *.
    exists 0%nat, (S n). rewrite Nat.add_0_r. split; [lia|]. split.
    { rewrite Hw. apply later_step. }
    split.
    { intros i Hi. destruct i as [|i].
      - now rewrite Nat.add_0_r.
      - rewrite Nat.add_succ_r. apply Ht. lia. }
    split; [intros i Hi; lia|]. split; [exact E|].
    unfold line_of. rewrite received_S, E.
    change ([] ++ DOLLAR :: received rx (S (rx_pos w)) n)
      with ([DOLLAR] ++ received rx (S (rx_pos w)) n).
    split; [exact Hl|]. split.
    + intros m Hmn. destruct m as [|m]; [lia|].
      rewrite received_S, E. destruct m as [|m]; [reflexivity|].
      apply (Hm (S m)). lia.
    + exists text. split; [exact Hd | exact Hline].
  - apply IH in H.
    destruct H as (g & n & Hn & Hw & Ht & Hg & Hk & Hl).
    cbn [rx_pos clock_pos] in *.
    exists (S g), n. split; [exact Hn|]. split.
    { rewrite Hw. apply later_step. }
    split.
    { intros i Hi. destruct i as [|i].
      - now rewrite Nat.add_0_r.
      - rewrite Nat.add_succ_r. apply Ht. lia. }
    split.
    { intros i Hi. destruct i as [|i].
      - rewrite Nat.add_0_r. now apply Byte.eqb_false.
      - rewrite Nat.add_succ_r. apply Hg. lia. }
    rewrite Nat.add_succ_r. split; [exact Hk | exact Hl].
Qed.

End ReaderSoundness.

(** X7. Whenever [read_sentence] returns a line, that line is made of bytes
    the receiver really sent: after [g] bytes other than [$], which are
    dropped, come [n >= 3] bytes that start with [$] and end with the first
    CR LF; the line is their ASCII text, stripped and without newlines.  The
    reader consumed exactly these [g + n] bytes, one clock reading before
    each, all before the deadline. *)
Theorem read_sentence_sound :
  forall (clock : nat -> float) (rx : nat -> byte) (fuel : nat)
         (timeout : float) (w : world) (line : string) (w' : world),
    read_sentence clock rx fuel timeout w = (Returned line, w') ->
    exists g n,
      (3 <= n)%nat
      /\ w' = later (S (g + n)) (g + n) w
      /\ in_time clock (S (clock_pos w)) (g + n)
                 (add timeout (clock (clock_pos w)))
      /\ (forall i, (i < g)%nat -> rx (rx_pos w + i)%nat <> DOLLAR)
      /\ rx (rx_pos w + g)%nat = DOLLAR
      /\ line_of rx [] (rx_pos w + g) n line.
Proof.
  intros clock rx fuel timeout w line w' H.
  unfold read_sentence, time_time in H.
  apply read_loop_closed_sound in H.
  destruct H as (g & n & Hn & Hw & Ht & Hg & Hk & Hl).
  cbn [rx_pos clock_pos] in *.
  exists g, n. split.
  - destruct n as [|[|[|n]]]; try lia.
    destruct Hl as [Hl _]. unfold received in Hl. simpl in Hl.
    rewrite Hk in Hl. discriminate Hl.
  - split.
    { rewrite Hw. unfold later; simpl. f_equal; lia. }
    split; [exact Ht|]. split; [exact Hg|]. split; [exact Hk | exact Hl].
Qed.

Lemma read_sentence_sound_witness :
  exists g n,
    (3 <= n)%nat
    /\ later 10 9 world0 = later (S (g + n)) (g + n) world0
    /\ in_time (frozen_clock 1700000000) 1 (g + n) (add 5 1700000000)
    /\ (forall i, (i < g)%nat ->
                  rx_of ("xx$A" ++ String "010" "B " ++ CRLF)%string (0 + i)%nat
                  <> DOLLAR)
    /\ rx_of ("xx$A" ++ String "010" "B " ++ CRLF)%string (0 + g)%nat = DOLLAR
    /\ line_of (rx_of ("xx$A" ++ String "010" "B " ++ CRLF)%string) [] (0 + g) n
               "$AB".
Proof.
  apply (read_sentence_sound (frozen_clock 1700000000)
           (rx_of ("xx$A" ++ String "010" "B " ++ CRLF)%string) 20 5 world0
           "$AB" (later 10 9 world0)).
  vm_compute. reflexivity.
Defined.

(** ** Framed reader: the shape of a returned line *)

Lemma decode_ascii_all (bs : list byte) (text : string) :
  decode_ascii bs = Some text -> all_chars is_ascii text = true.
Proof.
  revert text. induction bs as [|b bs IH]; intros text H; simpl in H.
  - now injection H as <-.
  - destruct (is_ascii (ascii_of_byte b)) eqn:E; [|discriminate H].
    destruct (decode_ascii bs) as [t|]; [|discriminate H].
    injection H as <-. simpl. now rewrite E, (IH t eq_refl).
Qed.

Lemma lstrip_all (P : ascii -> bool) (s : string) :
  all_chars P s = true -> all_chars P (lstrip s) = true.
Proof.
  induction s as [|c s IH]; simpl; [trivial|].
  intros H. destruct (is_space c); [|exact H].
  apply andb_true_iff in H as [_ H]. now apply IH.
Qed.

Lemma rstrip_all (P : ascii -> bool) (s : string) :
  all_chars P s = true -> all_chars P (rstrip s) = true.
Proof.
  induction s as [|c s IH]; simpl; [trivial|].
  intros H. apply andb_true_iff in H as [Hc H]. specialize (IH H).
  destruct (rstrip s) as [|d r].
  - destruct (is_space c); simpl; [reflexivity | now rewrite Hc].
  - simpl in *. now rewrite Hc, IH.
Qed.

Lemma remove_newlines_all (P : ascii -> bool) (s : string) :
  all_chars P s = true -> all_chars P (remove_newlines s) = true.
Proof.
  induction s as [|c s IH]; simpl; [trivial|].
  intros H. apply andb_true_iff in H as [Hc H].
  destruct (Ascii.eqb c "010"); simpl; [now apply IH | now rewrite Hc, IH].
Qed.

Lemma remove_newlines_clean (s : string) :
  all_chars not_newline (remove_newlines s) = true.
Proof.
  induction s as [|c s IH]; simpl; [reflexivity|].
  destruct (Ascii.eqb c "010") eqn:E; simpl; [exact IH|].
  unfold not_newline at 1. now rewrite E, IH.
Qed.

Lemma stripped_after_dollar (t : string) :
  exists rest, remove_newlines (strip (String "$" t)) = String "$" rest.
Proof.
  unfold strip. change (lstrip (String "$" t)) with (String "$" t).
  simpl rstrip. destruct (rstrip t) as [|d r]; eexists; reflexivity.
Qed.

(** X8. A line returned by [read_sentence] begins with [$], consists of
    ASCII characters only and contains no line feed. *)
Theorem read_sentence_line_shape :
  forall (clock : nat -> float) (rx : nat -> byte) (fuel : nat)
         (timeout : float) (w : world) (line : string) (w' : world),
    read_sentence clock rx fuel timeout w = (Returned line, w') ->
    (exists rest, line = String "$" rest)
    /\ all_chars is_ascii line = true
    /\ all_chars not_newline line = true.
Proof.
  intros clock rx fuel timeout w line w' H.
  unfold read_sentence, time_time in H.
  apply read_loop_closed_sound in H.
  destruct H as (g & n & Hn & _ & _ & _ & Hk & _ & _ & text & Hd & ->).
  cbn [rx_pos] in *.
  destruct n as [|n]; [lia|].
  rewrite received_S, Hk in Hd. change ([] ++ ?l) with l in Hd.
  pose proof (decode_ascii_all _ _ Hd) as Ha.
  simpl in Hd. destruct (decode_ascii (received rx _ n)) as [t|];
    [|discriminate Hd].
  injection Hd as <-. split; [apply stripped_after_dollar|]. split.
  - apply remove_newlines_all. unfold strip. now apply rstrip_all, lstrip_all.
  - apply remove_newlines_clean.
Qed.

Lemma read_sentence_line_shape_witness :
  (exists rest, GLL_line = String "$" rest)
  /\ all_chars is_ascii GLL_line = true
  /\ all_chars not_newline GLL_line = true.
Proof.
  apply (read_sentence_line_shape (frozen_clock 1700000000)
           (rx_of (GLL_line ++ CRLF)%string) 50 5 world0 GLL_line
           (later 43 42 world0)).
  vm_compute. reflexivity.
Defined.

(** ** Framed reader: time-outs and termination *)

Section ReaderTimeouts.

Variable clock : nat -> float.
Variable rx : nat -> byte.

Lemma read_loop_timeout (fuel : nat) :
  forall (deadline : float) (buf : list byte) (w : world) (msg : string)
         (w' : world),
    read_sentence_loop clock rx fuel deadline buf w
    = (Raised (TimeoutError msg), w') ->
    msg = "Timeout waiting for readline"
    /\ exists n, w' = later (S n) n w
                 /\ in_time clock (clock_pos w) n deadline
                 /\ ltb (clock (clock_pos w + n)%nat) deadline = false.
Proof.
  induction fuel as [|fuel IH]; intros deadline buf w msg w' H;
    [discriminate H|].
  rewrite read_sentence_loop_S in H. cbv zeta in H.
  destruct (ltb (clock (clock_pos w)) deadline) eqn:Hnow.
  - assert (Hrec : forall buf',
               read_sentence_loop clock rx fuel deadline buf'
                 (mkWorld (S (clock_pos w)) (S (rx_pos w)) (tx w) (stdout w))
               = (Raised (TimeoutError msg), w') ->
               msg = "Timeout waiting for readline"
               /\ exists n, w' = later (S n) n w
                            /\ in_time clock (clock_pos w) n deadline
                            /\ ltb (clock (clock_pos w + n)%nat) deadline = false).
    { intros buf' H'. apply IH in H'. destruct H' as (Hm & n & Hw & Ht & Hl).
      cbn [rx_pos clock_pos] in *. split; [exact Hm|].
      exists (S n). split; [rewrite Hw; apply later_step|]. split.
      - intros i Hi. destruct i as [|i].
        + now rewrite Nat.add_0_r.
        + rewrite Nat.add_succ_r. apply Ht. lia.
      - now rewrite Nat.add_succ_r. }
    destruct ((List.length buf =? 0)%nat
              && negb (Byte.eqb (rx (rx_pos w)) DOLLAR)); [exact (Hrec _ H)|].
    destruct (bytes_eqb (last_two (buf ++ [rx (rx_pos w)])) [CR; LF]);
      [|exact (Hrec _ H)].
    destruct (decode_ascii (buf ++ [rx (rx_pos w)])); discriminate H.
  - injection H as <- <-. split; [reflexivity|].
    exists 0%nat. split; [|split].
    + unfold later. f_equal; lia.
    + intros i Hi. lia.
    + now rewrite Nat.add_0_r.
Qed.

Lemma read_loop_terminates (n : nat) :
  forall (fuel : nat) (deadline : float) (buf : list byte) (w : world),
    ltb (clock (clock_pos w + n)%nat) deadline = false ->
    (n < fuel)%nat ->
    fst (read_sentence_loop clock rx fuel deadline buf w) <> OutOfFuel
    /\ (rx_pos (snd (read_sentence_loop clock rx fuel deadline buf w))
        <= rx_pos w + n)%nat.
Proof.
  induction n as [|n IH]; intros fuel deadline buf w Hlate Hfuel;
    (destruct fuel as [|fuel]; [lia|]);
    rewrite read_sentence_loop_S; cbv zeta.
  - rewrite Nat.add_0_r in Hlate. rewrite Hlate. simpl. split; [discriminate | lia].
  - destruct (ltb (clock (clock_pos w)) deadline);
      [|simpl; split; [discriminate | lia]].
    assert (Hrec : forall buf',
               fst (read_sentence_loop clock rx fuel deadline buf'
                      (mkWorld (S (clock_pos w)) (S (rx_pos w)) (tx w) (stdout w)))
               <> OutOfFuel
               /\ (rx_pos (snd (read_sentence_loop clock rx fuel deadline buf'
                      (mkWorld (S (clock_pos w)) (S (rx_pos w)) (tx w) (stdout w))))
                   <= rx_pos w + S n)%nat).
    { intros buf'.
      destruct (IH fuel deadline buf'
                   (mkWorld (S (clock_pos w)) (S (rx_pos w)) (tx w) (stdout w)))
        as [H1 H2].
      - cbn [clock_pos]. now rewrite Nat.add_succ_r in Hlate.
      - lia.
      - cbn [rx_pos] in H2. split; [exact H1 | lia]. }
    destruct ((List.length buf =? 0)%nat
              && negb (Byte.eqb (rx (rx_pos w)) DOLLAR)); [apply Hrec|].
    destruct (bytes_eqb (last_two (buf ++ [rx (rx_pos w)])) [CR; LF]);
      [|apply Hrec].
    destruct (decode_ascii (buf ++ [rx (rx_pos w)])); simpl;
      (split; [discriminate | lia]).
Qed.

(** The reader raises nothing but its own Timeout and decode errors, writes
    nothing to the bus and prints nothing. *)
Lemma read_loop_quiet (fuel : nat) :
  forall (deadline : float) (buf : list byte) (w : world),
    let r := read_sentence_loop clock rx fuel deadline buf w in
    tx (snd r) = tx w /\ stdout (snd r) = stdout w
    /\ (clock_pos w <= clock_pos (snd r))%nat
    /\ (rx_pos w <= rx_pos (snd r))%nat
    /\ forall e, fst r = Raised e ->
                 e = TimeoutError "Timeout waiting for readline"
                 \/ e = UnicodeDecodeError.
Proof.
  induction fuel as [|fuel IH]; intros deadline buf w; cbv zeta.
  - simpl. repeat split; try lia. intros e H. discriminate H.
  - rewrite read_sentence_loop_S. cbv zeta.
    assert (Hrec : forall buf',
               let r := read_sentence_loop clock rx fuel deadline buf'
                          (mkWorld (S (clock_pos w)) (S (rx_pos w)) (tx w) (stdout w)) in
               tx (snd r) = tx w /\ stdout (snd r) = stdout w
               /\ (clock_pos w <= clock_pos (snd r))%nat
               /\ (rx_pos w <= rx_pos (snd r))%nat
               /\ forall e, fst r = Raised e ->
                            e = TimeoutError "Timeout waiting for readline"
                            \/ e = UnicodeDecodeError).
    { intros buf'. cbv zeta.
      destruct (IH deadline buf'
                   (mkWorld (S (clock_pos w)) (S (rx_pos w)) (tx w) (stdout w)))
        as (H1 & H2 & H3 & H4 & H5).
      cbn [tx stdout clock_pos rx_pos] in *.
      repeat split; try assumption; lia. }
    destruct (ltb (clock (clock_pos w)) deadline).
    + destruct ((List.length buf =? 0)%nat
                && negb (Byte.eqb (rx (rx_pos w)) DOLLAR)); [apply Hrec|].
      destruct (bytes_eqb (last_two (buf ++ [rx (rx_pos w)])) [CR; LF]);
        [|apply Hrec].
      destruct (decode_ascii (buf ++ [rx (rx_pos w)])); simpl;
        repeat split; try lia; intros e H; try discriminate H.
      injection H as <-. now right.
    + simpl. repeat split; try lia. intros e H. injection H as <-. now left.
Qed.

End ReaderTimeouts.

(** X9. When [read_sentence] gives up, it does so with its own message, at
    the first clock reading that is not before the deadline (the sum of the
    timeout and the reading taken on entry); it then has consumed exactly one
    byte per earlier reading, and whatever it had collected is dropped with
    the call. *)
Theorem read_sentence_timeout :
  forall (clock : nat -> float) (rx : nat -> byte) (fuel : nat)
         (timeout : float) (w : world) (msg : string) (w' : world),
    read_sentence clock rx fuel timeout w = (Raised (TimeoutError msg), w') ->
    msg = "Timeout waiting for readline"
    /\ exists n,
        w' = later (S (S n)) n w
        /\ in_time clock (S (clock_pos w)) n (add timeout (clock (clock_pos w)))
        /\ ltb (clock (S (clock_pos w) + n)%nat)
               (add timeout (clock (clock_pos w))) = false.
Proof.
  intros clock rx fuel timeout w msg w' H.
  unfold read_sentence, time_time in H.
  apply read_loop_timeout in H. destruct H as (Hm & n & Hw & Ht & Hl).
  cbn [clock_pos] in *. split; [exact Hm|].
  exists n. split; [|split; assumption].
  rewrite Hw. unfold later; simpl. f_equal; lia.
Qed.

Lemma read_sentence_timeout_witness :
  "Timeout waiting for readline" = "Timeout waiting for readline"
  /\ exists n,
      later 5 3 world0 = later (S (S n)) n world0
      /\ in_time (step_clock 4 1700000000 1700000010) 1 n
                 (add 5 (step_clock 4 1700000000 1700000010 0))
      /\ ltb (step_clock 4 1700000000 1700000010 (1 + n))
             (add 5 (step_clock 4 1700000000 1700000010 0)) = false.
Proof.
  apply (read_sentence_timeout (step_clock 4 1700000000 1700000010)
           (rx_of "$GP") 20 5 world0 "Timeout waiting for readline"
           (later 5 3 world0)).
  vm_compute. reflexivity.
Defined.

(** X10. [read_sentence] ends as soon as the clock is past the deadline: if
    the reading taken before the [(n+1)]-th byte is not before the deadline,
    the call returns or raises after at most [n] bytes, given fuel for
    [n + 1] passes. *)
Theorem read_sentence_terminates :
  forall (clock : nat -> float) (rx : nat -> byte) (n fuel : nat)
         (timeout : float) (w : world),
    ltb (clock (S (clock_pos w) + n)%nat) (add timeout (clock (clock_pos w)))
    = false ->
    (n < fuel)%nat ->
    fst (read_sentence clock rx fuel timeout w) <> OutOfFuel
    /\ (rx_pos (snd (read_sentence clock rx fuel timeout w)) <= rx_pos w + n)%nat.
Proof.
  intros clock rx n fuel timeout w Hlate Hfuel.
  unfold read_sentence, time_time.
  exact (read_loop_terminates clock rx n fuel _ []
           (mkWorld (S (clock_pos w)) (rx_pos w) (tx w) (stdout w))
           Hlate Hfuel).
Qed.

Lemma read_sentence_terminates_witness :
  fst (read_sentence (step_clock 4 1700000000 1700000010) (rx_of "$GP") 4 5 world0)
  <> OutOfFuel
  /\ (rx_pos (snd (read_sentence (step_clock 4 1700000000 1700000010)
                                 (rx_of "$GP") 4 5 world0)) <= 0 + 3)%nat.
Proof.
  apply (read_sentence_terminates (step_clock 4 1700000000 1700000010)
           (rx_of "$GP") 3 4 5 world0).
  - vm_compute. reflexivity.
  - lia.
Defined.

(** ** Sentence dispatcher: what a whole call does and does not do *)

Lemma dispatch_quiet (has_mtk : bool) (result : sentence)
      (wait_for line : string) (self : PA1010D) (w : world) :
  let r := update_dispatch has_mtk result wait_for line self w in
  tx (snd r) = tx w
  /\ clock_pos (snd r) = clock_pos w
  /\ rx_pos (snd r) = rx_pos w
  /\ _i2c_addr (snd (fst r)) = _i2c_addr self
  /\ _debug (snd (fst r)) = _debug self
  /\ exists out, stdout (snd r) = stdout w ++ out
                 /\ (_debug self = false -> out = []).
Proof.
  cbv zeta.
  assert (Hnil : exists out : list string,
             stdout w = stdout w ++ out /\ (_debug self = false -> out = [])).
  { exists []. now rewrite app_nil_r. }
  destruct result as [ts lat lon alt ns q| |mft p h v|spd| | | | | |c];
    simpl; unfold mtk_classes;
    try (destruct q, lat, lon); try (destruct has_mtk); simpl;
    try (do 5 (split; [reflexivity|]); exact Hnil).
  all: destruct (_debug self); simpl; do 5 (split; [reflexivity|]);
    [exists [line]; split; [reflexivity | discriminate]
    |exists []; split; [now rewrite app_nil_r | reflexivity]].
Qed.

Section WholeCall.

Variable clock : nat -> float.
Variable rx : nat -> byte.
Variable parse : string -> parsed.
Variable has_mtk : bool.

Lemma sentences_read_S (fuel : nat) (wait_for : string) (deadline : float)
      (self : PA1010D) (w : world) :
  sentences_read clock rx parse has_mtk (S fuel) wait_for deadline self w
  = if ltb (clock (clock_pos w)) deadline then
      match read_sentence clock rx fuel 5 (tick w) with
      | (Raised (TimeoutError _), w2) =>
          sentences_read clock rx parse has_mtk fuel wait_for deadline self w2
      | (Returned line, w2) =>
          match parse line with
          | ParseError =>
              sentences_read clock rx parse has_mtk fuel wait_for deadline self
                (if _debug self then print ("Parse error: " ++ line)%string w2
                 else w2)
          | ParseCrash _ _ => []
          | Parsed result =>
              result
              :: match update_dispatch has_mtk result wait_for line self w2 with
                 | (Continue, self', w3) =>
                     sentences_read clock rx parse has_mtk fuel wait_for
                                    deadline self' w3
                 | _ => []
                 end
          end
      | _ => []
      end
    else [].
Proof. reflexivity. Qed.

Lemma read_sentence_quiet (fuel : nat) (timeout : float) (w : world)
      (o : outcome string) (w2 : world) :
  read_sentence clock rx fuel timeout w = (o, w2) ->
  tx w2 = tx w /\ stdout w2 = stdout w
  /\ (clock_pos w < clock_pos w2)%nat /\ (rx_pos w <= rx_pos w2)%nat
  /\ forall e, o = Raised e ->
               e = TimeoutError "Timeout waiting for readline"
               \/ e = UnicodeDecodeError.
Proof.
  unfold read_sentence, time_time. intros H.
  pose proof (read_loop_quiet clock rx fuel (add timeout (clock (clock_pos w))) []
                (mkWorld (S (clock_pos w)) (rx_pos w) (tx w) (stdout w))) as Q.
  cbv zeta in Q. rewrite H in Q. cbn [fst snd tx stdout clock_pos rx_pos] in Q.
  destruct Q as (H1 & H2 & H3 & H4 & H5). repeat split; try assumption; lia.
Qed.

Lemma update_loop_quiet (fuel : nat) :
  forall (wait_for : string) (deadline : float) (self : PA1010D) (w : world),
    let r := update_loop clock rx parse has_mtk fuel wait_for deadline self w in
    tx (snd r) = tx w
    /\ (clock_pos w <= clock_pos (snd r))%nat
    /\ (rx_pos w <= rx_pos (snd r))%nat
    /\ _i2c_addr (snd (fst r)) = _i2c_addr self
    /\ _debug (snd (fst r)) = _debug self
    /\ exists out, stdout (snd r) = stdout w ++ out
                   /\ (_debug self = false -> out = []).
Proof.
  induction fuel as [|fuel IH]; intros wait_for deadline self w; cbv zeta.
  - simpl. repeat split; try lia. exists []. now rewrite app_nil_r.
  - rewrite update_loop_S.
    destruct (ltb (clock (clock_pos w)) deadline).
    2:{ simpl. repeat split; try lia. exists []. now rewrite app_nil_r. }
    destruct (read_sentence clock rx fuel 5 (tick w)) as [o w2] eqn:R.
    apply read_sentence_quiet in R. destruct R as (T2 & S2 & C2 & R2 & _).
    cbn [tick tx stdout clock_pos rx_pos] in *.
    assert (Hstop : forall (x : outcome bool),
               tx (snd (x, self, w2)) = tx w
               /\ (clock_pos w <= clock_pos (snd (x, self, w2)))%nat
               /\ (rx_pos w <= rx_pos (snd (x, self, w2)))%nat
               /\ _i2c_addr (snd (fst (x, self, w2))) = _i2c_addr self
               /\ _debug (snd (fst (x, self, w2))) = _debug self
               /\ exists out, stdout (snd (x, self, w2)) = stdout w ++ out
                              /\ (_debug self = false -> out = [])).
    { intros x. simpl. repeat split; try assumption; try lia.
      exists []. now rewrite app_nil_r. }
    assert (Hgo : forall (self2 : PA1010D) (w3 : world) (out0 : list string),
               tx w3 = tx w -> (clock_pos w <= clock_pos w3)%nat ->
               (rx_pos w <= rx_pos w3)%nat ->
               _i2c_addr self2 = _i2c_addr self -> _debug self2 = _debug self ->
               stdout w3 = stdout w ++ out0 ->
               (_debug self = false -> out0 = []) ->
               let r := update_loop clock rx parse has_mtk fuel wait_for
                                    deadline self2 w3 in
               tx (snd r) = tx w
               /\ (clock_pos w <= clock_pos (snd r))%nat
               /\ (rx_pos w <= rx_pos (snd r))%nat
               /\ _i2c_addr (snd (fst r)) = _i2c_addr self
               /\ _debug (snd (fst r)) = _debug self
               /\ exists out, stdout (snd r) = stdout w ++ out
                              /\ (_debug self = false -> out = [])).
    { intros self2 w3 out0 Ht Hc Hr Ha Hd Hs Ho. cbv zeta.
      destruct (IH wait_for deadline self2 w3)
        as (I1 & I2 & I3 & I4 & I5 & out & I6 & I7).
      repeat split; try congruence; try lia.
      exists (out0 ++ out). split.
      - now rewrite I6, Hs, app_assoc.
      - intros Hf. rewrite (Ho Hf). rewrite Hd in I7. now rewrite (I7 Hf). }
    destruct o as [line|e|].
    + destruct (parse line) as [result| |class msg]; [| |apply Hstop].
      * pose proof (dispatch_quiet has_mtk result wait_for line self w2) as Q.
        cbv zeta in Q.
        destruct (update_dispatch has_mtk result wait_for line self w2)
          as [[c self2] w3].
        cbn [fst snd] in Q.
        destruct Q as (Q1 & Q2 & Q3 & Q4 & Q5 & out0 & Q6 & Q7).
        destruct c as [b| |e].
        -- cbn [fst snd]. do 5 (split; [try congruence; lia|]).
           exists out0. split; [congruence | exact Q7].
        -- apply (Hgo self2 w3 out0); try assumption; try congruence; try lia.
        -- cbn [fst snd]. do 5 (split; [try congruence; lia|]).
           exists out0. split; [congruence | exact Q7].
      * destruct (_debug self) eqn:D.
        -- apply (Hgo self _ ["Parse error: " ++ line]%string);
             simpl; try congruence; try lia.
        -- apply (Hgo self w2 []); try congruence; try lia;
             try (intros _; reflexivity).
           now rewrite app_nil_r.
    + destruct e; try apply Hstop.
      apply (Hgo self w2 []); try congruence; try lia;
        try (intros _; reflexivity).
      now rewrite app_nil_r.
    + apply Hstop.
Qed.


Section FieldFrame.

Variable f : PA1010D -> pyval.
Variable P : sentence -> bool.

Hypothesis fold_keeps :
  forall result self, P result = false -> f (fold_table result self) = f self.

Lemma update_loop_keeps (fuel : nat) :
  forall (wait_for : string) (deadline : float) (self : PA1010D) (w : world),
    none_is P (sentences_read clock rx parse has_mtk fuel wait_for deadline
                              self w) = true ->
    f (snd (fst (update_loop clock rx parse has_mtk fuel wait_for deadline
                             self w))) = f self.
Proof.
  induction fuel as [|fuel IH]; intros wait_for deadline self w H; [reflexivity|].
  rewrite update_loop_S. rewrite sentences_read_S in H.
  destruct (ltb (clock (clock_pos w)) deadline); [|reflexivity].
  destruct (read_sentence clock rx fuel 5 (tick w)) as [[line|e|] w2];
    [| |reflexivity].
  - destruct (parse line) as [result| |class msg];
      [|exact (IH _ _ _ _ H)|reflexivity].
    pose proof (dispatch_folds has_mtk result wait_for line self w2) as F.
    unfold none_is in H. cbn [forallb] in H.
    apply andb_true_iff in H as [Hp H]. apply negb_true_iff in Hp.
    pose proof (fold_keeps result self Hp) as K.
    destruct (update_dispatch has_mtk result wait_for line self w2)
      as [[[b| |e] self2] w3]; cbn [fst snd] in *; subst self2.
    + exact K.
    + rewrite (IH _ _ _ _ H). exact K.
    + exact K.
  - destruct e; try reflexivity. exact (IH _ _ _ _ H).
Qed.

End FieldFrame.

End WholeCall.

(** X11. [update] only reads: whatever the outcome, it writes nothing to the
    bus, leaves the bus address and the debug flag of the object alone,
    takes at least one clock reading, never moves backwards in the received
    bytes, and only adds to the printed lines, adding none unless the object
    is in debug mode. *)
Theorem update_only_reads :
  forall (clock : nat -> float) (rx : nat -> byte)
         (parse : string -> parsed) (has_mtk : bool) (fuel : nat)
         (wait_for : string) (timeout : float) (self : PA1010D) (w : world),
    let r := update clock rx parse has_mtk fuel wait_for timeout self w in
    tx (snd r) = tx w
    /\ (clock_pos w < clock_pos (snd r))%nat
    /\ (rx_pos w <= rx_pos (snd r))%nat
    /\ _i2c_addr (snd (fst r)) = _i2c_addr self
    /\ _debug (snd (fst r)) = _debug self
    /\ exists out, stdout (snd r) = stdout w ++ out
                   /\ (_debug self = false -> out = []).
Proof.
  intros clock rx parse has_mtk fuel wait_for timeout self w. cbv zeta.
  unfold update, time_time.
  destruct (update_loop_quiet clock rx parse has_mtk fuel wait_for
              (add timeout (clock (clock_pos w))) self
              (mkWorld (S (clock_pos w)) (rx_pos w) (tx w) (stdout w)))
    as (H1 & H2 & H3 & H4 & H5 & out & H6 & H7).
  cbn [tx clock_pos rx_pos stdout] in *.
  do 5 (split; [try assumption; lia|]).
  exists out. split; assumption.
Qed.

Lemma update_only_reads_witness :
  exists out,
    stdout (snd (update (frozen_clock 1700000000)
                        (rx_of (PMTK_line ++ CRLF)%string) example_parse false
                        100 "GGA" 5 example_device world0))
    = stdout world0 ++ out
    /\ (_debug example_device = false -> out = []).
Proof.
  exact (proj2 (proj2 (proj2 (proj2 (proj2
           (update_only_reads (frozen_clock 1700000000)
              (rx_of (PMTK_line ++ CRLF)%string) example_parse false
              100 "GGA" 5 example_device world0)))))).
Defined.


(** A line on which the parser breaks ends the call with the parser's own
    exception. *)
Example update_parser_crash :
  update (frozen_clock 1700000000) (rx_of (PUBX_line ++ CRLF)%string)
         example_parse false 100 "GGA" 5 example_device world0
  = (Raised (OtherError "IndexError" "list index out of range"),
     example_device, mkWorld 13 10 [] []).
Proof. vm_compute. reflexivity. Qed.


(** X13. A device notice ends [update] with success whatever [wait_for] is:
    in a pass that reads and parses a plain proprietary sentence, or one of
    the two MTK boot sentences when the parser has them, [update] returns
    [True] with the fix state untouched; the proprietary line is printed in
    debug mode, and nothing else is read. *)
Theorem update_returns_on_notice :
  forall (clock : nat -> float) (rx : nat -> byte)
         (parse : string -> parsed) (has_mtk : bool) (fuel : nat)
         (wait_for : string) (deadline : float) (self : PA1010D)
         (w w2 : world) (line : string) (result : sentence),
    ltb (clock (clock_pos w)) deadline = true ->
    read_sentence clock rx fuel 5 (tick w) = (Returned line, w2) ->
    parse line = Parsed result ->
    is_notice has_mtk result = true ->
    update_loop clock rx parse has_mtk (S fuel) wait_for deadline self w
    = (Returned true, self,
       match result with
       | ProprietarySentence => if _debug self then print line w2 else w2
       | _ => w2
       end).
Proof.
  intros clock rx parse has_mtk fuel wait_for deadline self w w2 line result
         Hnow Hread Hparse Hn.
  rewrite (update_loop_sentence clock rx parse has_mtk fuel wait_for deadline
             self w w2 line result Hnow Hread Hparse).
  destruct result; simpl in Hn; try discriminate Hn;
    simpl; unfold mtk_classes; try rewrite Hn; reflexivity.
Qed.

Lemma update_returns_on_notice_witness :
  update_loop (frozen_clock 1700000000) (rx_of (PMTK_line ++ CRLF)%string)
              example_parse false 100 "GGA" (add 5 1700000000)
              (init PA1010D_ADDR true) (mkWorld 1 0 [] [])
  = (Returned true, init PA1010D_ADDR true, mkWorld 23 20 [] [PMTK_line]).
Proof.
  apply (update_returns_on_notice
           (frozen_clock 1700000000) (rx_of (PMTK_line ++ CRLF)%string)
           example_parse false 99 "GGA" (add 5 1700000000)
           (init PA1010D_ADDR true) (mkWorld 1 0 [] []) (mkWorld 23 20 [] [])
           PMTK_line ProprietarySentence);
    vm_compute; reflexivity.
Defined.

(** X14. Each group of fix fields changes through its own sentence kind only,
    over a whole call of [update] and whatever its outcome: when none of the
    sentences parsed during the call is a GGA sentence, time, position,
    satellite count and quality stay as they were; when none is a GSA
    sentence, the fix type and the three DOP values; when none is an RMC
    sentence, the speed over ground. *)
Theorem update_keeps_untouched_fields :
  forall (clock : nat -> float) (rx : nat -> byte)
         (parse : string -> parsed) (has_mtk : bool) (fuel : nat)
         (wait_for : string) (timeout : float) (self : PA1010D) (w : world),
    let self' :=
      snd (fst (update clock rx parse has_mtk fuel wait_for timeout self w)) in
    let reads :=
      update_reads clock rx parse has_mtk fuel wait_for timeout self w in
    (none_is is_GGA reads = true ->
     timestamp self' = timestamp self /\ latitude self' = latitude self
     /\ longitude self' = longitude self /\ altitude self' = altitude self
     /\ num_sats self' = num_sats self /\ gps_qual self' = gps_qual self)
    /\ (none_is is_GSA reads = true ->
        mode_fix_type self' = mode_fix_type self /\ pdop self' = pdop self
        /\ hdop self' = hdop self /\ vdop self' = vdop self)
    /\ (none_is is_RMC reads = true ->
        speed_over_ground self' = speed_over_ground self).
Proof.
  intros clock rx parse has_mtk fuel wait_for timeout self w. cbv zeta.
  unfold update, update_reads, time_time.
  assert (K : forall (f : PA1010D -> pyval) (P : sentence -> bool),
             (forall result s, P result = false -> f (fold_table result s) = f s) ->
             none_is P (sentences_read clock rx parse has_mtk fuel wait_for
                          (add timeout (clock (clock_pos w))) self
                          (mkWorld (S (clock_pos w)) (rx_pos w) (tx w) (stdout w)))
             = true ->
             f (snd (fst (update_loop clock rx parse has_mtk fuel wait_for
                            (add timeout (clock (clock_pos w))) self
                            (mkWorld (S (clock_pos w)) (rx_pos w) (tx w) (stdout w)))))
             = f self).
  { intros f P Hf Hn. now apply (update_loop_keeps clock rx parse has_mtk f P). }
  split; [|split]; intros Hn.
  - repeat split; apply (K _ is_GGA); try exact Hn;
      intros result s Hr; destruct result; try discriminate Hr; reflexivity.
  - repeat split; apply (K _ is_GSA); try exact Hn;
      intros result s Hr; destruct result as [? lat lon ? ? q| | | | | | | | |];
      try discriminate Hr; try reflexivity; destruct q, lat, lon; reflexivity.
  - apply (K _ is_RMC); try exact Hn.
    intros result s Hr; destruct result as [? lat lon ? ? q| | | | | | | | |];
      try discriminate Hr; try reflexivity; destruct q, lat, lon; reflexivity.
Qed.

(** A GSA sentence followed by a GGA sentence, waiting for "GSA": the call
    returns on the first, the second is not read, and the position fields
    are as they were. *)
Lemma update_keeps_untouched_fields_witness :
  let self' :=
    snd (fst (update (frozen_clock 1700000000)
                     (rx_of (GSA_line ++ CRLF ++ GGA_line ++ CRLF)%string)
                     example_parse false 100 "GSA" 5 example_device world0)) in
  timestamp self' = timestamp example_device
  /\ latitude self' = latitude example_device
  /\ longitude self' = longitude example_device
  /\ altitude self' = altitude example_device
  /\ num_sats self' = num_sats example_device
  /\ gps_qual self' = gps_qual example_device.
Proof.
  apply (proj1 (update_keeps_untouched_fields
                  (frozen_clock 1700000000)
                  (rx_of (GSA_line ++ CRLF ++ GGA_line ++ CRLF)%string)
                  example_parse false 100 "GSA" 5 example_device world0)).
  vm_compute. reflexivity.
Defined.

(** ** Encoder and reader agree on the framing *)

Lemma encode_then_decode (s : string) (b : list byte) :
  encode_ascii s = Some b -> decode_ascii b = Some s.
Proof.
  revert b. induction s as [|c s IH]; intros b H; simpl in H.
  - now injection H as <-.
  - destruct (is_ascii c) eqn:E; [|discriminate H].
    destruct (encode_ascii s) as [bs|]; [|discriminate H].
    injection H as <-. simpl.
    now rewrite ascii_of_byte_of_ascii, E, (IH bs eq_refl).
Qed.

Lemma visible_encodes (s : string) :
  all_chars visible s = true -> encode_ascii s = Some (list_byte_of_string s).
Proof.
  induction s as [|c s IH]; simpl; [reflexivity|].
  intros H. apply andb_true_iff in H as [Hc Hs].
  unfold visible in Hc. apply andb_true_iff in Hc as [Hc _].
  rewrite Hc, (IH Hs). reflexivity.
Qed.

Lemma graphic_visible (s : string) :
  all_chars graphic s = true -> all_chars visible s = true.
Proof.
  induction s as [|c s IH]; simpl; [trivial|].
  intros H. apply andb_true_iff in H as [Hc H]. rewrite (IH H), andb_true_r.
  unfold graphic, plain in Hc. unfold visible.
  apply andb_true_iff in Hc as [Hc Hsp]. apply andb_true_iff in Hc as [Hc _].
  apply andb_true_iff in Hc as [Hc _]. now rewrite Hc, Hsp.
Qed.

Lemma visible_no_newline (s : string) :
  all_chars visible s = true -> remove_newlines s = s.
Proof.
  induction s as [|c s IH]; simpl; [trivial|].
  intros H. apply andb_true_iff in H as [Hc H]. rewrite (IH H).
  destruct (Ascii.eqb c "010") eqn:E; [|reflexivity].
  apply Ascii.eqb_eq in E. subst c. discriminate Hc.
Qed.

Lemma visible_rstrip (s : string) :
  all_chars visible s = true -> rstrip s = s.
Proof.
  induction s as [|c s IH]; simpl; [trivial|].
  intros H. apply andb_true_iff in H as [Hc H]. rewrite (IH H).
  unfold visible in Hc. apply andb_true_iff in Hc as [_ Hc].
  apply negb_true_iff in Hc. rewrite Hc. now destruct s.
Qed.

Lemma visible_no_crlf (s : string) :
  all_chars visible s = true -> has_crlf (list_byte_of_string s) = false.
Proof.
  induction s as [|c s IH]; [reflexivity|].
  simpl all_chars. intros H. apply andb_true_iff in H as [Hc H].
  specialize (IH H).
  change (list_byte_of_string (String c s))
    with (byte_of_ascii c :: list_byte_of_string s).
  destruct (list_byte_of_string s) as [|y bs]; [reflexivity|].
  change (has_crlf (byte_of_ascii c :: y :: bs))
    with ((Byte.eqb (byte_of_ascii c) CR && Byte.eqb y LF) || has_crlf (y :: bs)).
  rewrite IH, orb_false_r.
  replace (Byte.eqb (byte_of_ascii c) CR) with false; [reflexivity|].
  symmetry. apply byte_eqb_neq. intros Heq.
  apply (f_equal ascii_of_byte) in Heq. rewrite ascii_of_byte_of_ascii in Heq.
  subst c. discriminate Hc.
Qed.

Lemma two_chars_table : forallb two_chars_ok (seq 0 256) = true.
Proof. vm_compute. reflexivity. Qed.

Lemma format_02X_visible (c : N) :
  (c < 256)%N ->
  all_chars visible (format_02X c) = true
  /\ list_byte_of_string (format_02X c) = two_hex_digits c.
Proof.
  intros Hc. pose proof two_chars_table as T. rewrite forallb_forall in T.
  specialize (T (N.to_nat c)).
  assert (Hin : In (N.to_nat c) (seq 0 256)) by (apply in_seq; lia).
  apply T in Hin. unfold two_chars_ok in Hin. rewrite N2Nat.id in Hin.
  apply andb_true_iff in Hin as [Hin H2]. apply andb_true_iff in Hin as [He H1].
  apply String.eqb_eq in He. rewrite He. split.
  - simpl. now rewrite H1, H2.
  - reflexivity.
Qed.

Lemma list_byte_of_string_app (a b : string) :
  list_byte_of_string (a ++ b) = list_byte_of_string a ++ list_byte_of_string b.
Proof.
  induction a as [|c a IH]; [reflexivity|].
  change (list_byte_of_string (String c a ++ b))
    with (byte_of_ascii c :: list_byte_of_string (a ++ b)).
  now rewrite IH.
Qed.

(** X15. What [send_command] writes, [read_sentence] reads back: when the
    receiver answers the very bytes that [send_command] wrote for a text
    command of ASCII characters other than [$], [*] and white space, the
    reader returns the line [$<command>*<two checksum digits>], and has
    consumed exactly those bytes. *)
Theorem send_then_read_loopback :
  forall (clock : nat -> float) (rx : nat -> byte) (self : PA1010D)
         (s : string) (w0 w : world) (timeout : float) (fuel : nat),
    all_chars graphic s = true ->
    let frame := skipn (List.length (tx w0))
                       (wire (snd (send_command self (Text s) true w0))) in
    stream_at rx (rx_pos w) frame ->
    in_time clock (S (clock_pos w)) (List.length frame)
            (add timeout (clock (clock_pos w))) ->
    (List.length frame <= fuel)%nat ->
    read_sentence clock rx fuel timeout w
    = (Returned ("$" ++ s ++ "*"
                 ++ format_02X (xor_loop (list_byte_of_string s)))%string,
       later (S (List.length frame)) (List.length frame) w).
Proof.
  intros clock rx self s w0 w timeout fuel Hg frame.
  pose proof (graphic_visible s Hg) as Hv.
  pose proof (visible_encodes s Hv) as He.
  assert (Hc : (xor_loop (list_byte_of_string s) < 256)%N)
    by (rewrite xor_loop_spec; apply spec_checksum_range).
  destruct (format_02X_visible _ Hc) as [Hvd Hbd].
  set (text := (s ++ "*" ++ format_02X (xor_loop (list_byte_of_string s)))%string).
  assert (Hvt : all_chars visible text = true).
  { unfold text. rewrite !all_chars_app, Hv, Hvd. reflexivity. }
  assert (Hframe : frame = [] ++ [DOLLAR] ++ list_byte_of_string text ++ [CR; LF]).
  { unfold frame, wire.
    rewrite (send_command_frame self (Text s) _ true w0 He).
    unfold sent. cbn [snd tx]. rewrite map_app, map_map. cbn [snd].
    rewrite map_id, skipn_app, length_map, Nat.sub_diag, skipn_all2
      by (rewrite length_map; lia).
    assert (Hpl : all_chars plain s = true).
    { clear -Hg. induction s as [|c s IH]; simpl in *; [reflexivity|].
      apply andb_true_iff in Hg as [Hc H]. unfold graphic in Hc.
      apply andb_true_iff in Hc as [Hc _]. now rewrite Hc, IH. }
    unfold spec_frame. cbv zeta. rewrite (normalize_plain s Hpl), <- xor_loop_spec.
    unfold text. rewrite !list_byte_of_string_app, Hbd.
    simpl. now rewrite <- !app_assoc. }
  rewrite Hframe. intros Hs Ht Hf.
  rewrite (read_sentence_frame clock rx [] (list_byte_of_string text) text
             timeout fuel w (Forall_nil _) (visible_no_crlf text Hvt)
             (encode_then_decode _ _ (visible_encodes text Hvt)) Hs Ht Hf).
  assert (Hall : all_chars visible (String "$" text) = true)
    by (simpl; now rewrite Hvt).
  now rewrite (visible_rstrip _ Hall), (visible_no_newline _ Hall).
Qed.

Lemma send_then_read_loopback_witness :
  read_sentence (frozen_clock 1700000000)
                (rx_of ("$PMTK285,4,100*38" ++ CRLF)%string) 30 5 world0
  = (Returned "$PMTK285,4,100*38", later 20 19 world0).
Proof.
  apply (send_then_read_loopback (frozen_clock 1700000000)
           (rx_of ("$PMTK285,4,100*38" ++ CRLF)%string) example_device
           "PMTK285,4,100" world0 world0 5 30).
  - reflexivity.
  - intros i _. reflexivity.
  - intros i _. reflexivity.
  - simpl. lia.
Defined.
